(** * Traffic Simulation Visualizer: playback controller and scene renderer

    A shallow embedding of [visualize.py].  The [Visualizer] object is a
    record that the methods pass along explicitly; Python exceptions are
    the [Raise] case of a small error monad; Python [int] is [Z] (unbounded)
    and Python [float] is IEEE binary64, taken from the standard library's
    executable specification [SpecFloat]. *)

From Stdlib Require Import ZArith List String Bool Lia.
From Stdlib Require Import Floats.SpecFloat.
Import ListNotations.
Local Open Scope Z_scope.

(** ** Python exceptions and the error monad *)

Inductive PyExc : Type :=
| IndexError
| ValueError
| ZeroDivisionError
| OverflowError
| AssertionError
| SyntaxError.

Inductive result (A : Type) : Type :=
| Ok (a : A)
| Raise (e : PyExc).

Arguments Ok {A} a.
Arguments Raise {A} e.

Definition bind {A B : Type} (r : result A) (k : A -> result B) : result B :=
  match r with
  | Ok a => k a
  | Raise e => Raise e
  end.

Notation "x <- r ;; k" := (bind r (fun x => k))
  (at level 61, r at next level, right associativity).

(** [for x in xs: ...] where the body may raise and yields a value. *)
Fixpoint mapM {A B : Type} (f : A -> result B) (xs : list A) : result (list B) :=
  match xs with
  | [] => Ok []
  | x :: xs' => y <- f x ;; ys <- mapM f xs' ;; Ok (y :: ys)
  end.

(** ** Python numbers *)

Module Py.

(** IEEE binary64. *)
Definition prec : Z := 53.
Definition emax : Z := 1024.
Definition float : Type := spec_float.

(** A number as [ast.literal_eval] yields it: [int] (and [bool], its
    subclass) or [float]. *)
Inductive num : Type :=
| Int (z : Z)
| Float (f : float).

(** [float(z)]: the nearest binary64, ties to even; an [int] beyond the
    range of binary64 raises [OverflowError]. *)
Definition float_of_int (z : Z) : result float :=
  match binary_normalize prec emax z 0 false with
  | S754_infinity _ => Raise OverflowError
  | f => Ok f
  end.

(** [int(f)]: truncation toward zero. *)
Definition int_of_float (f : float) : result Z :=
  match f with
  | S754_zero _ => Ok 0
  | S754_infinity _ => Raise OverflowError
  | S754_nan => Raise ValueError
  | S754_finite s m e => Ok (cond_Zopp s (Z.shiftl (Zpos m) e))
  end.

(** [int(x)] *)
Definition int (x : num) : result Z :=
  match x with
  | Int z => Ok z
  | Float f => int_of_float f
  end.

(** [bool(x)] *)
Definition bool (x : num) : Datatypes.bool :=
  match x with
  | Int z => negb (z =? 0)
  | Float (S754_zero _) => false
  | Float _ => true
  end.

(** [f * g] on floats. *)
Definition fmul (f g : float) : float := SFmul prec emax f g.

(** [x * f] with [f] a float: an [int] operand is converted first. *)
Definition mul_float (x : num) (f : float) : result float :=
  match x with
  | Int z => g <- float_of_int z ;; Ok (fmul g f)
  | Float g => Ok (fmul g f)
  end.

(** [a / b] on ints: the correctly rounded quotient. *)
Definition truediv (a b : Z) : result float :=
  let neg := xorb (a <? 0) (b <? 0) in
  match a, b with
  | _, Z0 => Raise ZeroDivisionError
  | Z0, _ => Ok (S754_zero neg)
  | (Zpos p | Zneg p), (Zpos q | Zneg q) =>
      match SFdiv prec emax (S754_finite false p 0) (S754_finite false q 0) with
      | S754_infinity _ => Raise OverflowError
      | S754_finite _ m e => Ok (S754_finite neg m e)
      | S754_zero _ => Ok (S754_zero neg)
      | f => Ok f
      end
  end.

(** [xs[i]] on a list: a negative index counts from the end. *)
Definition getitem {A : Type} (xs : list A) (i : Z) : result A :=
  let len := Z.of_nat (List.length xs) in
  let j := if i <? 0 then i + len else i in
  if (j <? 0) || (len <=? j) then Raise IndexError
  else match nth_error xs (Z.to_nat j) with
       | Some x => Ok x
       | None => Raise IndexError
       end.

(** [max(...)] over a generator of ints: [ValueError] when it is empty. *)
Definition max (xs : list Z) : result Z :=
  match xs with
  | [] => Raise ValueError
  | x :: xs' => Ok (fold_left Z.max xs' x)
  end.

End Py.

(** A few binary64 constants. *)
Definition float_8_0 : Py.float := S754_finite false 4503599627370496 (-49).
Definition float_0_8 : Py.float := S754_finite false 7205759403792794 (-53).

(** ** Simulation data

    One line of the input feed, after [ast.literal_eval]: a dict with keys
    ['time'] and ['roads']; a road has ['name'], ['length'], ['lights'] and
    ['cars']; a light has ['x'], ['green'] and optionally ['xs'] and ['xs0'];
    a car has ['x']. *)

Record Car : Type := { car_x : Py.num }.

Record Light : Type := {
  light_x : Py.num;
  light_green : Py.num;
  light_xs : option Py.num;
  light_xs0 : option Py.num
}.

Record Road : Type := {
  road_name : string;
  road_length : Py.num;
  road_lights : list Light;
  road_cars : list Car
}.

Record Situation : Type := {
  situation_time : Py.num;
  situation_roads : list Road
}.

(** ** Colors *)

Record Color : Type := { _red : Z; _green : Z; _blue : Z }.

Module Colors.
Record t : Type := {
  background : Color;
  text : Color;
  road : Color;
  car : Color;
  traffic_light_green : Color;
  traffic_light_red : Color;
  generator : Color;
  deceleration_range : Color;
  stopping_range_full : Color;
  stopping_range_half : Color
}.

(** The defaults of the [NamedTuple]. *)
Definition default : t := {|
  background := Build_Color 255 255 255;
  text := Build_Color 0 0 0;
  road := Build_Color 200 200 200;
  car := Build_Color 40 40 40;
  traffic_light_green := Build_Color 0 255 0;
  traffic_light_red := Build_Color 255 0 0;
  generator := Build_Color 255 100 255;
  deceleration_range := Build_Color 155 175 213;
  stopping_range_full := Build_Color 219 125 125;
  stopping_range_half := Build_Color 213 173 99
|}.

(** The theme [main] installs under [--dark]. *)
Definition dark : t := {|
  background := Build_Color 0 0 0;
  text := Build_Color 255 255 255;
  road := Build_Color 55 55 55;
  car := Build_Color 215 215 215;
  traffic_light_green := traffic_light_green default;
  traffic_light_red := traffic_light_red default;
  generator := Build_Color 140 0 140;
  deceleration_range := Build_Color 55 75 113;
  stopping_range_full := Build_Color 119 25 25;
  stopping_range_half := Build_Color 113 73 0
|}.
End Colors.

(** ** The Visualizer object *)

Definition INITIAL_WINDOW_WIDTH : Z := 800.
Definition INITIAL_WINDOW_HEIGHT : Z := 200.

Record Visualizer : Type := {
  _fps : Z;
  _window_width : Z;
  _window_height : Z;
  _window_title : string;
  _canvas_margin : Z;
  _road_height : Z;
  _car_height : Z;
  _car_width : Z;
  _light_offset : Z;
  _light_radius : Z;
  _light_stop_line_thickness : Z;
  _road_name_offset : Z;
  _colors : Colors.t;
  _font_family : string;
  _font_size : Z;
  _pause_icon_width : Z;
  _pause_icon_height : Z;
  _playback_rate : Z;
  _timeline : list Situation;
  _time_idx : Z;
  _paused : bool
}.

(** [Visualizer.__init__] *)
Definition __init__ (initial_window_width initial_window_height : Z) : Visualizer := {|
  _fps := 60;
  _window_width := initial_window_width;
  _window_height := initial_window_height;
  _window_title := "Traffic Simulation Visualizer";
  _canvas_margin := 16;
  _road_height := 20;
  _car_height := 10;
  _car_width := 4;
  _light_offset := 4;
  _light_radius := 5;
  _light_stop_line_thickness := 1;
  _road_name_offset := 3;
  _colors := Colors.default;
  _font_family := "DejaVu Sans";
  _font_size := 16;
  _pause_icon_width := 15;
  _pause_icon_height := 20;
  _playback_rate := 1;
  _timeline := [];
  _time_idx := 0;
  _paused := false
|}.

(** Attribute assignments [self._attr = value]. *)
Definition with_time_idx (i : Z) (v : Visualizer) : Visualizer := {|
  _fps := _fps v; _window_width := _window_width v;
  _window_height := _window_height v; _window_title := _window_title v;
  _canvas_margin := _canvas_margin v; _road_height := _road_height v;
  _car_height := _car_height v; _car_width := _car_width v;
  _light_offset := _light_offset v; _light_radius := _light_radius v;
  _light_stop_line_thickness := _light_stop_line_thickness v;
  _road_name_offset := _road_name_offset v; _colors := _colors v;
  _font_family := _font_family v; _font_size := _font_size v;
  _pause_icon_width := _pause_icon_width v;
  _pause_icon_height := _pause_icon_height v;
  _playback_rate := _playback_rate v; _timeline := _timeline v;
  _time_idx := i;
  _paused := _paused v
|}.

Definition with_paused (b : bool) (v : Visualizer) : Visualizer := {|
  _fps := _fps v; _window_width := _window_width v;
  _window_height := _window_height v; _window_title := _window_title v;
  _canvas_margin := _canvas_margin v; _road_height := _road_height v;
  _car_height := _car_height v; _car_width := _car_width v;
  _light_offset := _light_offset v; _light_radius := _light_radius v;
  _light_stop_line_thickness := _light_stop_line_thickness v;
  _road_name_offset := _road_name_offset v; _colors := _colors v;
  _font_family := _font_family v; _font_size := _font_size v;
  _pause_icon_width := _pause_icon_width v;
  _pause_icon_height := _pause_icon_height v;
  _playback_rate := _playback_rate v; _timeline := _timeline v;
  _time_idx := _time_idx v;
  _paused := b
|}.

Definition with_window_size (w h : Z) (v : Visualizer) : Visualizer := {|
  _fps := _fps v; _window_width := w;
  _window_height := h; _window_title := _window_title v;
  _canvas_margin := _canvas_margin v; _road_height := _road_height v;
  _car_height := _car_height v; _car_width := _car_width v;
  _light_offset := _light_offset v; _light_radius := _light_radius v;
  _light_stop_line_thickness := _light_stop_line_thickness v;
  _road_name_offset := _road_name_offset v; _colors := _colors v;
  _font_family := _font_family v; _font_size := _font_size v;
  _pause_icon_width := _pause_icon_width v;
  _pause_icon_height := _pause_icon_height v;
  _playback_rate := _playback_rate v; _timeline := _timeline v;
  _time_idx := _time_idx v;
  _paused := _paused v
|}.

Definition with_playback_rate (r : Z) (v : Visualizer) : Visualizer := {|
  _fps := _fps v; _window_width := _window_width v;
  _window_height := _window_height v; _window_title := _window_title v;
  _canvas_margin := _canvas_margin v; _road_height := _road_height v;
  _car_height := _car_height v; _car_width := _car_width v;
  _light_offset := _light_offset v; _light_radius := _light_radius v;
  _light_stop_line_thickness := _light_stop_line_thickness v;
  _road_name_offset := _road_name_offset v; _colors := _colors v;
  _font_family := _font_family v; _font_size := _font_size v;
  _pause_icon_width := _pause_icon_width v;
  _pause_icon_height := _pause_icon_height v;
  _playback_rate := r; _timeline := _timeline v;
  _time_idx := _time_idx v;
  _paused := _paused v
|}.

Definition with_colors (c : Colors.t) (v : Visualizer) : Visualizer := {|
  _fps := _fps v; _window_width := _window_width v;
  _window_height := _window_height v; _window_title := _window_title v;
  _canvas_margin := _canvas_margin v; _road_height := _road_height v;
  _car_height := _car_height v; _car_width := _car_width v;
  _light_offset := _light_offset v; _light_radius := _light_radius v;
  _light_stop_line_thickness := _light_stop_line_thickness v;
  _road_name_offset := _road_name_offset v; _colors := c;
  _font_family := _font_family v; _font_size := _font_size v;
  _pause_icon_width := _pause_icon_width v;
  _pause_icon_height := _pause_icon_height v;
  _playback_rate := _playback_rate v; _timeline := _timeline v;
  _time_idx := _time_idx v;
  _paused := _paused v
|}.

Definition with_timeline (t : list Situation) (v : Visualizer) : Visualizer := {|
  _fps := _fps v; _window_width := _window_width v;
  _window_height := _window_height v; _window_title := _window_title v;
  _canvas_margin := _canvas_margin v; _road_height := _road_height v;
  _car_height := _car_height v; _car_width := _car_width v;
  _light_offset := _light_offset v; _light_radius := _light_radius v;
  _light_stop_line_thickness := _light_stop_line_thickness v;
  _road_name_offset := _road_name_offset v; _colors := _colors v;
  _font_family := _font_family v; _font_size := _font_size v;
  _pause_icon_width := _pause_icon_width v;
  _pause_icon_height := _pause_icon_height v;
  _playback_rate := _playback_rate v; _timeline := t;
  _time_idx := _time_idx v;
  _paused := _paused v
|}.

(** [len(self._timeline)] *)
Definition timeline_len (v : Visualizer) : Z := Z.of_nat (List.length (_timeline v)).

(** ** Playback controller *)

Definition set_playback_rate (rate : Z) (v : Visualizer) : result Visualizer :=
  if 1 <=? rate then Ok (with_playback_rate rate v) else Raise AssertionError.

Definition set_colors (colors : Colors.t) (v : Visualizer) : Visualizer :=
  with_colors colors v.

Definition _toggle_pause (v : Visualizer) : Visualizer :=
  with_paused (negb (_paused v)) v.

Definition _frames_back (n : Z) (v : Visualizer) : Visualizer :=
  with_time_idx (Z.max 0 (_time_idx v - n)) v.

Definition _frames_forward (n : Z) (v : Visualizer) : Visualizer :=
  let v := with_time_idx (_time_idx v + n) v in
  if timeline_len v <=? _time_idx v then
    let v := with_paused true v in
    with_time_idx (timeline_len v - 1) v
  else v.

(** ** Input *)

Inductive Key : Type :=
| K_SPACE | K_r | K_LEFT | K_RIGHT | K_LSHIFT | K_RSHIFT | K_OTHER.

Definition Key_eqb (a b : Key) : bool :=
  match a, b with
  | K_SPACE, K_SPACE | K_r, K_r | K_LEFT, K_LEFT | K_RIGHT, K_RIGHT
  | K_LSHIFT, K_LSHIFT | K_RSHIFT, K_RSHIFT | K_OTHER, K_OTHER => true
  | _, _ => false
  end.

Inductive Event : Type :=
| QUIT
| VIDEORESIZE (width height : Z)
| KEYDOWN (key : Key)
| OTHER_EVENT.

(** [pygame.key.get_pressed()]: the held state of every key. *)
Definition KeysPressed : Type := Key -> bool.

Definition _handle_key_down (key : Key) (v : Visualizer) : Visualizer :=
  let v := if Key_eqb key K_SPACE then _toggle_pause v else v in
  if Key_eqb key K_r then with_time_idx 0 v else v.

Definition _handle_keys_pressed (keys_pressed : KeysPressed) (v : Visualizer)
  : Visualizer :=
  let shift_pressed := keys_pressed K_LSHIFT || keys_pressed K_RSHIFT in
  let v :=
    if keys_pressed K_LEFT then
      if _paused v then
        _frames_back (if shift_pressed then _playback_rate v else 1) v
      else v
    else v in
  if keys_pressed K_RIGHT then
    if _paused v then
      _frames_forward (if shift_pressed then _playback_rate v else 1) v
    else v
  else v.

(** ** Scene renderer

    What is drawn on the window surface, in order.  A frame is presented
    by [pygame.display.update()] only after [_render_situation] returned,
    so a render that raises presents nothing. *)

Inductive Text : Type :=
| TimeText (time : Py.num)      (* f'Time: {time}' *)
| NameText (name : string).

Inductive DrawCmd : Type :=
| Fill (color : Color)
| Rect (color : Color) (left top width height : Z)
| Line (color : Color) (x1 y1 x2 y2 width : Z)
| Circle (color : Color) (center_x center_y radius : Z)
| Blit (font_family : string) (font_size : Z) (italic : bool)
       (color : Color) (txt : Text) (left top : Z).

Definition _get_canvas_margin (v : Visualizer) : Z := _canvas_margin v.
Definition _get_canvas_origin_left (v : Visualizer) : Z := _get_canvas_margin v.
Definition _get_canvas_origin_top (v : Visualizer) : Z := _get_canvas_margin v.
Definition _get_canvas_width (v : Visualizer) : Z :=
  _window_width v - 2 * _get_canvas_margin v.
Definition _get_canvas_height (v : Visualizer) : Z :=
  _window_height v - 2 * _get_canvas_margin v.
Definition _get_road_height (v : Visualizer) : Z := _road_height v.
Definition _get_car_height (v : Visualizer) : Z := _car_height v.
Definition _get_car_width (v : Visualizer) : Z := _car_width v.
Definition _get_light_offset (v : Visualizer) : Z := _light_offset v.
Definition _get_light_radius (v : Visualizer) : Z := _light_radius v.
Definition _get_light_stop_line_thickness (v : Visualizer) : Z :=
  _light_stop_line_thickness v.
Definition _get_road_name_offset (v : Visualizer) : Z := _road_name_offset v.
Definition _get_font_size (v : Visualizer) : Z := _font_size v.

(** [int(x * horizontal_scale)], the conversion every offset goes through. *)
Definition scaled (x : Py.num) (horizontal_scale : Py.float) : result Z :=
  f <- Py.mul_float x horizontal_scale ;; Py.int_of_float f.

Definition _draw_background (v : Visualizer) : list DrawCmd :=
  [Fill (Colors.background (_colors v))].

Definition _draw_pause_icon (v : Visualizer) : list DrawCmd :=
  let width := _pause_icon_width v in
  let height := _pause_icon_height v in
  let origin_left := _get_canvas_origin_left v + _get_canvas_width v - width in
  let origin_top := _get_canvas_origin_top v in
  [Rect (Colors.text (_colors v)) origin_left origin_top width height;
   Rect (Colors.background (_colors v))
        (origin_left + width / 3) origin_top (width - 2 * width / 3) height].

Definition _draw_time (v : Visualizer) (time : Py.num) : list DrawCmd :=
  [Blit (_font_family v) (_get_font_size v) false (Colors.text (_colors v))
        (TimeText time) (_get_canvas_origin_left v) (_get_canvas_origin_top v)].

Definition _draw_road_name (v : Visualizer) (name : string) (road_x road_y : Z)
  : result (list DrawCmd) :=
  size_f <- Py.float_of_int (_get_font_size v) ;;
  size <- Py.int_of_float (Py.fmul float_0_8 size_f) ;;
  let origin_y := road_y + _get_road_height v / 2 + _get_road_name_offset v in
  Ok [Blit (_font_family v) size true (Colors.text (_colors v))
           (NameText name) road_x origin_y].

Definition _draw_generator (v : Visualizer) (road_x road_y : Z)
  (horizontal_scale : Py.float) : result (list DrawCmd) :=
  w <- scaled (Py.Int (_get_car_width v)) horizontal_scale ;;
  let width := Z.max 1 w in
  let road_height := _get_road_height v in
  let origin_x := road_x - width in
  let origin_y := road_y - road_height / 2 in
  Ok [Rect (Colors.generator (_colors v)) origin_x origin_y width road_height].

Definition _draw_road (v : Visualizer) (origin_x center_y width : Z) : list DrawCmd :=
  let road_height := _get_road_height v in
  let origin_y := center_y - road_height / 2 in
  [Rect (Colors.road (_colors v)) origin_x origin_y width road_height].

Definition _draw_car (v : Visualizer) (origin_x center_y width : Z) : list DrawCmd :=
  let car_height := _get_car_height v in
  let origin_y := center_y - car_height / 2 in
  [Rect (Colors.car (_colors v)) origin_x origin_y width car_height].

Definition _draw_traffic_light (v : Visualizer) (center_x road_center_y : Z)
  (stop_line_thickness : Z) (is_green : bool) : list DrawCmd :=
  let color := if is_green then Colors.traffic_light_green (_colors v)
               else Colors.traffic_light_red (_colors v) in
  let road_height := _get_road_height v in
  let light_offset := _get_light_offset v in
  let line_top_y := road_center_y - road_height / 2 in
  let line_bottom_y := road_center_y + road_height / 2 + light_offset in
  let radius := _get_light_radius v in
  let center_y := road_center_y + road_height / 2 + light_offset + radius in
  [Line color center_x line_top_y center_x line_bottom_y stop_line_thickness;
   Circle color center_x center_y radius].

Definition _draw_indicators (v : Visualizer) (light_x road_y : Z)
  (deceleration_distance stopping_distance : Z) : list DrawCmd :=
  let origin_y := road_y - _get_road_height v / 2 in
  [Rect (Colors.deceleration_range (_colors v))
        (light_x - deceleration_distance) origin_y
        deceleration_distance (_get_road_height v);
   Rect (Colors.stopping_range_full (_colors v))
        (light_x - stopping_distance) origin_y
        stopping_distance (_get_road_height v);
   Rect (Colors.stopping_range_half (_colors v))
        (light_x - stopping_distance / 2) origin_y
        (stopping_distance / 2) (_get_road_height v)].

(** The body of the loop of [_draw_cars]. *)
Definition _draw_cars_body (v : Visualizer) (road_y : Z)
  (horizontal_scale : Py.float) (car : Car) : result (list DrawCmd) :=
  w <- scaled (Py.Int (_get_car_width v)) horizontal_scale ;;
  let car_width := Z.max 1 w in
  p <- scaled (car_x car) horizontal_scale ;;
  let car_x_offset := p - car_width in
  let car_x := _get_canvas_origin_left v + car_x_offset in
  Ok (_draw_car v car_x road_y car_width).

Definition _draw_cars (v : Visualizer) (cars : list Car) (road_y : Z)
  (horizontal_scale : Py.float) : result (list DrawCmd) :=
  cmds <- mapM (_draw_cars_body v road_y horizontal_scale) cars ;;
  Ok (List.concat cmds).

(** [int(x) * horizontal_scale] *)
Definition int_times (x : Py.num) (horizontal_scale : Py.float) : result Py.float :=
  xi <- Py.int x ;; Py.mul_float (Py.Int xi) horizontal_scale.

(** [int(int(x) * horizontal_scale)], as lights and zone offsets are mapped. *)
Definition scaled_int (x : Py.num) (horizontal_scale : Py.float) : result Z :=
  f <- int_times x horizontal_scale ;; Py.int_of_float f.

(** The body of the loop of [_draw_traffic_lights]. *)
Definition _draw_traffic_lights_body (v : Visualizer) (road_y : Z)
  (horizontal_scale : Py.float) (light : Light) : result (list DrawCmd) :=
  light_x_offset <- scaled_int (light_x light) horizontal_scale ;;
  let light_x := _get_canvas_origin_left v + light_x_offset in
  t <- scaled (Py.Int (_get_light_stop_line_thickness v)) horizontal_scale ;;
  let stop_line_thickness := Z.max 1 t in
  let is_green := Py.bool (light_green light) in
  indicators <-
    match light_xs light, light_xs0 light with
    | Some xs, Some xs0 =>
        if negb is_green then
          deceleration_distance <- int_times xs horizontal_scale ;;
          stopping_distance <- int_times xs0 horizontal_scale ;;
          dd <- Py.int_of_float deceleration_distance ;;
          sd <- Py.int_of_float stopping_distance ;;
          Ok (_draw_indicators v light_x road_y dd sd)
        else Ok []
    | _, _ => Ok []
    end ;;
  Ok (indicators ++
      _draw_traffic_light v light_x road_y stop_line_thickness is_green).

Definition _draw_traffic_lights (v : Visualizer) (lights : list Light)
  (road_y : Z) (horizontal_scale : Py.float) : result (list DrawCmd) :=
  cmds <- mapM (_draw_traffic_lights_body v road_y horizontal_scale) lights ;;
  Ok (List.concat cmds).

Definition _draw_full_road (v : Visualizer) (road : Road) (road_y : Z)
  (horizontal_scale : Py.float) : result (list DrawCmd) :=
  let road_x := _get_canvas_origin_left v in
  road_width <- scaled_int (road_length road) horizontal_scale ;;
  name <- _draw_road_name v (road_name road) road_x road_y ;;
  let bar := _draw_road v road_x road_y road_width in
  lights <- _draw_traffic_lights v (road_lights road) road_y horizontal_scale ;;
  cars <- _draw_cars v (road_cars road) road_y horizontal_scale ;;
  generator <- _draw_generator v road_x road_y horizontal_scale ;;
  Ok (name ++ bar ++ lights ++ cars ++ generator).

(** [max(int(road['length']) for road in roads)] *)
Definition max_road_length (roads : list Road) : result Z :=
  lengths <- mapM (fun road => Py.int (road_length road)) roads ;;
  Py.max lengths.

(** [self._get_canvas_width() / max_road_length] *)
Definition horizontal_scale (v : Visualizer) (roads : list Road) : result Py.float :=
  m <- max_road_length roads ;;
  Py.truediv (_get_canvas_width v) m.

(** [enumerate(xs)], counting from [i]. *)
Fixpoint enumerate {A : Type} (i : Z) (xs : list A) : list (Z * A) :=
  match xs with
  | [] => []
  | x :: xs' => (i, x) :: enumerate (i + 1) xs'
  end.

Definition _render_situation (v : Visualizer) (situation : Situation)
  : result (list DrawCmd) :=
  let background := _draw_background v in
  let time := _draw_time v (situation_time situation) in
  let pause := if _paused v then _draw_pause_icon v else [] in
  let roads := situation_roads situation in
  scale <- horizontal_scale v roads ;;
  drawn <- mapM (fun ir : Z * Road =>
      let (i, road) := ir in
      road_y_offset <- Py.truediv ((i + 1) * _get_canvas_height v)
                                  (Z.of_nat (List.length roads) + 1) ;;
      y <- Py.int_of_float road_y_offset ;;
      let road_y := _get_canvas_origin_top v + y in
      _draw_full_road v road road_y scale) (enumerate 0 roads) ;;
  Ok (background ++ time ++ pause ++ List.concat drawn).

(** ** Render loop *)

(** The [for event in pygame.event.get()] loop; [true] when a [QUIT] event
    made [main_loop] return. *)
Fixpoint handle_events (events : list Event) (v : Visualizer) : Visualizer * bool :=
  match events with
  | [] => (v, false)
  | QUIT :: _ => (v, true)
  | VIDEORESIZE w h :: rest => handle_events rest (with_window_size w h v)
  | KEYDOWN key :: rest => handle_events rest (_handle_key_down key v)
  | OTHER_EVENT :: rest => handle_events rest v
  end.

Inductive TickResult : Type :=
| Quit (v : Visualizer)
| Crash (e : PyExc) (v : Visualizer)
| Frame (v : Visualizer) (situation : Situation) (frame : list DrawCmd).

(** One iteration of [while True] in [main_loop].  [get_pressed()] returns
    a non-empty sequence, so [if keys_pressed:] always holds. *)
Definition tick (events : list Event) (keys_pressed : KeysPressed)
  (v : Visualizer) : TickResult :=
  match handle_events events v with
  | (v, true) => Quit v
  | (v, false) =>
      let v := _handle_keys_pressed keys_pressed v in
      match Py.getitem (_timeline v) (_time_idx v) with
      | Raise e => Crash e v
      | Ok situation =>
          let v := if _paused v then v
                   else _frames_forward (_playback_rate v) v in
          match _render_situation v situation with
          | Raise e => Crash e v
          | Ok frame => Frame v situation frame
          end
      end
  end.

(** How a run of the program ends, with the frames presented so far.
    [Running] is the loop still going when the recorded input is used up. *)
Inductive Outcome : Type :=
| Exited (frames : list (list DrawCmd))
| Crashed (e : PyExc) (frames : list (list DrawCmd))
| UsageError
| Running (v : Visualizer) (frames : list (list DrawCmd)).

Definition TickInput : Type := (list Event * KeysPressed)%type.

Fixpoint loop (inputs : list TickInput) (v : Visualizer)
  (frames : list (list DrawCmd)) : Outcome :=
  match inputs with
  | [] => Running v frames
  | (events, keys_pressed) :: rest =>
      match tick events keys_pressed v with
      | Quit _ => Exited frames
      | Crash e _ => Crashed e frames
      | Frame v' _ frame => loop rest v' (frames ++ [frame])
      end
  end.

Definition main_loop (inputs : list TickInput) (v : Visualizer) : Outcome :=
  loop inputs (with_time_idx 0 v) [].

Section Main.

(** [ast.literal_eval] on one line of the feed. *)
Variable literal_eval : string -> result Situation.

Definition push_simulation_frame_data (data : string) (v : Visualizer)
  : result Visualizer :=
  parsed_data <- literal_eval data ;;
  Ok (with_timeline (_timeline v ++ [parsed_data]) v).

Fixpoint push_lines (lines : list string) (v : Visualizer) : result Visualizer :=
  match lines with
  | [] => Ok v
  | line :: rest =>
      v' <- push_simulation_frame_data line v ;; push_lines rest v'
  end.

(** [main], with the command line already split into [--speed] and
    [--dark], [sys.stdin.readlines()] as [lines] and the input of each
    tick as [inputs]. *)
Definition main (speed : Z) (dark : bool) (lines : list string)
  (inputs : list TickInput) : Outcome :=
  if speed <? 1 then UsageError
  else
    let visualizer := __init__ INITIAL_WINDOW_WIDTH INITIAL_WINDOW_HEIGHT in
    match set_playback_rate speed visualizer with
    | Raise e => Crashed e []
    | Ok visualizer =>
        let visualizer :=
          if dark then set_colors Colors.dark visualizer else visualizer in
        match push_lines lines visualizer with
        | Raise e => Crashed e []
        | Ok visualizer => main_loop inputs visualizer
        end
    end.

End Main.

(** ** The [Color] class

    The constructor and the setters assert that a channel lies in
    [0, 255]; a failed [assert] raises [AssertionError]. *)

Definition in_channel_range (c : Z) : bool := (0 <=? c) && (c <=? 255).

Definition Color__init__ (red green blue : Z) : result Color :=
  if negb (in_channel_range red) then Raise AssertionError
  else if negb (in_channel_range green) then Raise AssertionError
  else if negb (in_channel_range blue) then Raise AssertionError
  else Ok {| _red := red; _green := green; _blue := blue |}.

Definition as_tuple (c : Color) : Z * Z * Z := (_red c, _green c, _blue c).

Definition get_red (c : Color) : Z := _red c.
Definition get_green (c : Color) : Z := _green c.
Definition get_blue (c : Color) : Z := _blue c.

Definition set_red (red : Z) (c : Color) : result Color :=
  if negb (in_channel_range red) then Raise AssertionError
  else Ok {| _red := red; _green := _green c; _blue := _blue c |}.

Definition set_green (green : Z) (c : Color) : result Color :=
  if negb (in_channel_range green) then Raise AssertionError
  else Ok {| _red := _red c; _green := green; _blue := _blue c |}.

Definition set_blue (blue : Z) (c : Color) : result Color :=
  if negb (in_channel_range blue) then Raise AssertionError
  else Ok {| _red := _red c; _green := _green c; _blue := blue |}.

(** A call of one of the setters. *)
Inductive ColorOp : Type :=
| SetRed (red : Z)
| SetGreen (green : Z)
| SetBlue (blue : Z).

Definition apply_color_op (op : ColorOp) (c : Color) : result Color :=
  match op with
  | SetRed r => set_red r c
  | SetGreen g => set_green g c
  | SetBlue b => set_blue b c
  end.

(** A sequence of setter calls, stopping at the first that raises. *)
Fixpoint apply_color_ops (ops : list ColorOp) (c : Color) : result Color :=
  match ops with
  | [] => Ok c
  | op :: rest => c' <- apply_color_op op c ;; apply_color_ops rest c'
  end.

Definition valid_color (c : Color) : Prop :=
  0 <= _red c <= 255 /\ 0 <= _green c <= 255 /\ 0 <= _blue c <= 255.

(** ** More vocabulary *)

(** Lines 202-203 of [main_loop]: the automatic advance of one tick. *)
Definition auto_advance (v : Visualizer) : Visualizer :=
  if _paused v then v else _frames_forward (_playback_rate v) v.

(** The step [_handle_keys_pressed] seeks by. *)
Definition seek_step (keys_pressed : KeysPressed) (v : Visualizer) : Z :=
  if keys_pressed K_LSHIFT || keys_pressed K_RSHIFT then _playback_rate v else 1.

Definition is_rect (c : DrawCmd) : bool :=
  match c with Rect _ _ _ _ _ => true | _ => false end.

Definition left_held : KeysPressed :=
  fun k => match k with K_LEFT => true | _ => false end.

Definition both_arrows_held : KeysPressed :=
  fun k => match k with K_LEFT | K_RIGHT => true | _ => false end.

(** A feed reader for examples: the line ["ok"] parses, any other line
    is malformed. *)
Definition toy_literal_eval (data : string) : result Situation :=
  if String.eqb data "ok" then
    Ok {| situation_time := Py.Int 0;
          situation_roads :=
            [ {| road_name := "A"; road_length := Py.Int 100;
                 road_lights := []; road_cars := [] |} ] |}
  else Raise SyntaxError.

(** The visualizer [main] has built when it starts reading the feed. *)
Definition configured (speed : Z) (dark : bool) : Visualizer :=
  let v := with_playback_rate speed
             (__init__ INITIAL_WINDOW_WIDTH INITIAL_WINDOW_HEIGHT) in
  if dark then set_colors Colors.dark v else v.

(** ** Vocabulary of the properties *)

(** One controller operation: the automatic advance of a tick, a seek by
    [n >= 1] frames in either direction, the restart key, the pause key. *)
Inductive controller_step : Visualizer -> Visualizer -> Prop :=
| step_auto_advance v :
    controller_step v (_frames_forward (_playback_rate v) v)
| step_forward v n :
    1 <= n -> controller_step v (_frames_forward n v)
| step_back v n :
    1 <= n -> controller_step v (_frames_back n v)
| step_restart v :
    controller_step v (_handle_key_down K_r v)
| step_toggle_pause v :
    controller_step v (_toggle_pause v).

(** The states some sequence of controller operations leads to. *)
Inductive reachable (v0 : Visualizer) : Visualizer -> Prop :=
| reachable_start : reachable v0 v0
| reachable_step v v' :
    reachable v0 v -> controller_step v v' -> reachable v0 v'.

(** The index addresses a snapshot of the timeline. *)
Definition valid_index (v : Visualizer) : Prop :=
  0 <= _time_idx v < timeline_len v.

Definition is_quit (e : Event) : bool :=
  match e with QUIT => true | _ => false end.

Definition no_keys : KeysPressed := fun _ => false.

(** [z] is an integer nearest to the finite float [f]: [|f - z| <= 1/2],
    whichever way ties go. *)
Definition nearest_int (f : Py.float) (z : Z) : bool :=
  match f with
  | S754_zero _ => z =? 0
  | S754_finite s m e =>
      let n := cond_Zopp s (Zpos m) in
      if 0 <=? e then z =? n * 2 ^ e
      else Z.abs (2 * (n - z * 2 ^ (- e))) <=? 2 ^ (- e)
  | _ => false
  end.

(** The snapshots of the end-to-end scenario: one road "A" of length 100
    without lights, one car. *)
Definition snapshot (time x : Z) : Situation := {|
  situation_time := Py.Int time;
  situation_roads :=
    [ {| road_name := "A"; road_length := Py.Int 100;
         road_lights := []; road_cars := [ {| car_x := Py.Int x |} ] |} ]
|}.

Definition two_snapshots : Visualizer :=
  with_timeline [snapshot 0 10; snapshot 1 20]
    (__init__ INITIAL_WINDOW_WIDTH INITIAL_WINDOW_HEIGHT).

Definition three_snapshots : Visualizer :=
  with_timeline [snapshot 0 10; snapshot 1 20; snapshot 2 30]
    (__init__ INITIAL_WINDOW_WIDTH INITIAL_WINDOW_HEIGHT).

(** Python's [a / x] for an int [a] and a number [x]: what "canvas width
    divided by the road length" means when the length is not an int. *)
Definition truediv_num (a : Z) (x : Py.num) : result Py.float :=
  match x with
  | Py.Int z => Py.truediv a z
  | Py.Float (S754_zero _) => Raise ZeroDivisionError
  | Py.Float f => g <- Py.float_of_int a ;; Ok (SFdiv Py.prec Py.emax g f)
  end.

Definition float_1_0 : Py.float := S754_finite false 4503599627370496 (-52).
Definition float_1_75 : Py.float := S754_finite false 7881299347898368 (-52).
Definition float_2_5 : Py.float := S754_finite false 5629499534213120 (-51).
Definition float_4_0 : Py.float := S754_finite false 4503599627370496 (-50).
Definition float_5_0 : Py.float := S754_finite false 5629499534213120 (-50).

Definition plain_road (name : string) (length : Py.num) : Road := {|
  road_name := name; road_length := length; road_lights := []; road_cars := []
|}.

(** Roads of lengths 50, 100 and 25. *)
Definition three_roads : list Road :=
  [plain_road "A" (Py.Int 50); plain_road "B" (Py.Int 100);
   plain_road "C" (Py.Int 25)].

(** A window whose canvas is [width] pixels wide. *)
Definition canvas_of_width (width : Z) : Visualizer :=
  __init__ (width + 32) INITIAL_WINDOW_HEIGHT.

(** A red light at 10 with a deceleration zone of 8 and a stopping zone
    of 5. *)
Definition red_light : Light := {|
  light_x := Py.Int 10; light_green := Py.Int 0;
  light_xs := Some (Py.Int 8); light_xs0 := Some (Py.Int 5)
|}.

(** The frame a render returned, nothing when it raised. *)
Definition frame_of (r : result (list DrawCmd)) : list DrawCmd :=
  match r with
  | Ok frame => frame
  | Raise _ => []
  end.

Ltac split_conj := repeat match goal with |- _ /\ _ => split end.

Ltac by_computation := vm_compute; reflexivity.

(** ** Python arithmetic on concrete values *)

Example truediv_800_100 : Py.truediv 800 100 = Ok float_8_0.
Proof. vm_compute; reflexivity. Qed.

(** [1 / 3 = 0.3333333333333333], that is [0x15555555555555 * 2^-54]. *)
Example truediv_1_3 :
  Py.truediv 1 3 = Ok (S754_finite false 6004799503160661 (-54)).
Proof. vm_compute; reflexivity. Qed.

(** [-7 / 4 = -1.75] and [int(-1.75) = -1]. *)
Example truediv_then_int_negative :
  (f <- Py.truediv (-7) 4 ;; Py.int_of_float f) = Ok (-1).
Proof. vm_compute; reflexivity. Qed.

(** [float(2**53 + 1) = 2.0**53]: ties go to even. *)
Example float_of_int_ties_to_even :
  Py.float_of_int (2 ^ 53 + 1) = Ok (S754_finite false 4503599627370496 1).
Proof. vm_compute; reflexivity. Qed.

(** [int(.8 * 16) = 12], the size of the road name font. *)
Example road_name_font_size :
  (g <- Py.float_of_int 16 ;; Py.int_of_float (Py.fmul float_0_8 g)) = Ok 12.
Proof. vm_compute; reflexivity. Qed.

Example getitem_last {A : Type} (a b c : A) : Py.getitem [a; b; c] (-1) = Ok c.
Proof. reflexivity. Qed.

(** ** Playback controller: basic facts *)

Lemma frames_forward_time_idx n v :
  _time_idx (_frames_forward n v) =
  if timeline_len v <=? _time_idx v + n then timeline_len v - 1
  else _time_idx v + n.
Proof.
  unfold _frames_forward, timeline_len; cbn.
  destruct (_ <=? _); reflexivity.
Qed.

Lemma frames_forward_paused n v :
  _paused (_frames_forward n v) =
  if timeline_len v <=? _time_idx v + n then true else _paused v.
Proof.
  unfold _frames_forward, timeline_len; cbn.
  destruct (_ <=? _); reflexivity.
Qed.

Lemma frames_forward_frame n v :
  _timeline (_frames_forward n v) = _timeline v /\
  _playback_rate (_frames_forward n v) = _playback_rate v.
Proof.
  unfold _frames_forward, timeline_len; cbn.
  destruct (_ <=? _); split; reflexivity.
Qed.

Lemma frames_back_time_idx n v :
  _time_idx (_frames_back n v) = Z.max 0 (_time_idx v - n).
Proof. reflexivity. Qed.

Lemma timeline_len_frames_forward n v :
  timeline_len (_frames_forward n v) = timeline_len v.
Proof.
  unfold timeline_len. now rewrite (proj1 (frames_forward_frame n v)).
Qed.

Lemma frames_forward_valid n v :
  1 <= n -> valid_index v -> valid_index (_frames_forward n v).
Proof.
  unfold valid_index; intros Hn Hv.
  rewrite timeline_len_frames_forward, frames_forward_time_idx.
  destruct (Z.leb_spec (timeline_len v) (_time_idx v + n)); lia.
Qed.

Lemma frames_back_valid n v :
  1 <= n -> valid_index v -> valid_index (_frames_back n v).
Proof.
  unfold valid_index; intros Hn Hv.
  rewrite frames_back_time_idx.
  change (timeline_len (_frames_back n v)) with (timeline_len v). lia.
Qed.

(** ** Playback controller: the claims *)

(** C1 (as the code has it).  From a valid index and for [n >= 1],
    [_frames_forward] never leaves the timeline; when the step overshoots
    ([index + n >= length]) the index is clamped to [length - 1] and the
    paused flag is set; when it does not, the index is [index + n] and the
    paused flag is left as it was, also when [index + n = length - 1]. *)
Theorem frames_forward_clamps_and_pauses_on_overshoot :
  forall v n,
    1 <= timeline_len v ->
    0 <= _time_idx v < timeline_len v ->
    1 <= n ->
    let v' := _frames_forward n v in
    0 <= _time_idx v' < timeline_len v /\
    (timeline_len v <= _time_idx v + n ->
       _time_idx v' = timeline_len v - 1 /\ _paused v' = true) /\
    (_time_idx v + n < timeline_len v ->
       _time_idx v' = _time_idx v + n /\ _paused v' = _paused v).
Proof.
  intros v n HL Hi Hn v'; subst v'.
  rewrite frames_forward_time_idx, frames_forward_paused.
  destruct (Z.leb_spec (timeline_len v) (_time_idx v + n)) as [Hover | Hin].
  - split_conj; intros; split_conj; first [reflexivity | lia].
  - split_conj; intros; split_conj; first [reflexivity | lia].
Qed.

Lemma frames_forward_clamps_and_pauses_on_overshoot_witness :
  let v := with_time_idx 1 three_snapshots in
  let v' := _frames_forward 5 v in
  0 <= _time_idx v' < timeline_len v /\
  (timeline_len v <= _time_idx v + 5 ->
     _time_idx v' = timeline_len v - 1 /\ _paused v' = true) /\
  (_time_idx v + 5 < timeline_len v ->
     _time_idx v' = _time_idx v + 5 /\ _paused v' = _paused v).
Proof.
  apply (frames_forward_clamps_and_pauses_on_overshoot
           (with_time_idx 1 three_snapshots) 5);
    vm_compute; intuition discriminate.
Defined.

(** C1 (as stated) fails: on a timeline of three snapshots, running at
    index 0, a step of 2 reaches the last index 2 and the paused flag is
    still false. *)
Lemma frames_forward_reaches_end_unpaused :
  let v := three_snapshots in
  let v' := _frames_forward 2 v in
  1 <= timeline_len v /\ 0 <= _time_idx v < timeline_len v /\
  _time_idx v' = timeline_len v - 1 /\ _paused v' = false.
Proof. vm_compute. intuition discriminate. Qed.

(** C6.  The restart key sets the index to 0 and changes nothing else:
    the paused flag, the playback rate, the timeline and every other
    attribute are those of the state before. *)
Theorem restart_resets_index_only :
  forall v,
    let v' := _handle_key_down K_r v in
    _time_idx v' = 0 /\ _paused v' = _paused v /\
    v' = {|
      _fps := _fps v; _window_width := _window_width v;
      _window_height := _window_height v; _window_title := _window_title v;
      _canvas_margin := _canvas_margin v; _road_height := _road_height v;
      _car_height := _car_height v; _car_width := _car_width v;
      _light_offset := _light_offset v; _light_radius := _light_radius v;
      _light_stop_line_thickness := _light_stop_line_thickness v;
      _road_name_offset := _road_name_offset v; _colors := _colors v;
      _font_family := _font_family v; _font_size := _font_size v;
      _pause_icon_width := _pause_icon_width v;
      _pause_icon_height := _pause_icon_height v;
      _playback_rate := _playback_rate v; _timeline := _timeline v;
      _time_idx := 0;
      _paused := _paused v
    |}.
Proof. intros v; cbn. split_conj; reflexivity. Qed.

(** C7.  When the forward step is not clamped ([index + n < length]),
    [_frames_forward n] followed by [_frames_back n] gives back the
    index it started from. *)
Theorem forward_then_back_restores_index :
  forall v n,
    1 <= timeline_len v ->
    0 <= _time_idx v < timeline_len v ->
    0 <= n ->
    _time_idx v + n < timeline_len v ->
    _time_idx (_frames_back n (_frames_forward n v)) = _time_idx v.
Proof.
  intros v n HL Hi Hn Hfit.
  rewrite frames_back_time_idx, frames_forward_time_idx.
  destruct (Z.leb_spec (timeline_len v) (_time_idx v + n)); lia.
Qed.

Lemma forward_then_back_restores_index_witness :
  _time_idx (_frames_back 1 (_frames_forward 1 (with_time_idx 1 three_snapshots)))
  = _time_idx (with_time_idx 1 three_snapshots).
Proof.
  apply (forward_then_back_restores_index (with_time_idx 1 three_snapshots) 1);
    vm_compute; intuition discriminate.
Defined.

(** Every controller operation keeps the timeline and the playback rate. *)
Lemma controller_step_frame v v' :
  controller_step v v' ->
  _timeline v' = _timeline v /\ _playback_rate v' = _playback_rate v.
Proof.
  intros H; destruct H; try apply frames_forward_frame; split; reflexivity.
Qed.

Lemma controller_step_valid v v' :
  1 <= _playback_rate v -> controller_step v v' ->
  valid_index v -> valid_index v'.
Proof.
  intros Hrate Hstep Hv; destruct Hstep.
  - now apply frames_forward_valid.
  - now apply frames_forward_valid.
  - now apply frames_back_valid.
  - unfold valid_index in *; cbn.
    change (timeline_len (with_time_idx 0 v)) with (timeline_len v). lia.
  - exact Hv.
Qed.

(** C9.  On a non-empty timeline and with a playback rate of at least 1,
    every state reachable from index 0 by controller operations has
    [0 <= index < length]. *)
Theorem reachable_index_valid :
  forall v0 v,
    _timeline v0 <> [] ->
    1 <= _playback_rate v0 ->
    _time_idx v0 = 0 ->
    reachable v0 v ->
    0 <= _time_idx v < timeline_len v.
Proof.
  intros v0 v Hne Hrate Hidx Hreach.
  assert (Hinv : valid_index v /\ 1 <= _playback_rate v).
  { induction Hreach as [| v v' Hreach IH Hstep].
    - split; [| exact Hrate].
      unfold valid_index, timeline_len. rewrite Hidx.
      destruct (_timeline v0); [contradiction | cbn [List.length]; lia].
    - destruct IH as [IHv IHr]. split.
      + now apply (controller_step_valid v v').
      + rewrite (proj2 (controller_step_frame v v' Hstep)). exact IHr. }
  exact (proj1 Hinv).
Qed.

Lemma reachable_index_valid_witness :
  let v := _frames_back 1 (_frames_forward 1 (_frames_forward 1 (_frames_forward 1 three_snapshots))) in
  0 <= _time_idx v < timeline_len v.
Proof.
  apply (reachable_index_valid three_snapshots).
  - discriminate.
  - vm_compute; discriminate.
  - reflexivity.
  - eapply reachable_step; [| apply step_back; lia].
    eapply reachable_step; [| apply step_forward; lia].
    eapply reachable_step; [| apply step_forward; lia].
    eapply reachable_step; [| apply (step_auto_advance three_snapshots)].
    apply reachable_start.
Defined.

(** C10.  [_frames_back] never touches the paused flag, whatever the
    index and the step (hence neither at the end of the timeline nor when
    it clamps at index 0); it leaves the timeline and the playback rate
    alone as well. *)
Theorem frames_back_keeps_paused :
  forall n v,
    _paused (_frames_back n v) = _paused v /\
    _timeline (_frames_back n v) = _timeline v /\
    _playback_rate (_frames_back n v) = _playback_rate v.
Proof. intros n v. split_conj; reflexivity. Qed.

(** ** Render loop *)

Lemma set_playback_rate_positive rate v v' :
  set_playback_rate rate v = Ok v' ->
  1 <= _playback_rate v' /\ _timeline v' = _timeline v.
Proof.
  unfold set_playback_rate.
  destruct (Z.leb_spec 1 rate); [| discriminate].
  intros [= <-]; cbn; split; [assumption | reflexivity].
Qed.

Lemma handle_key_down_timeline key v :
  _timeline (_handle_key_down key v) = _timeline v.
Proof.
  unfold _handle_key_down.
  destruct (Key_eqb key K_SPACE), (Key_eqb key K_r); reflexivity.
Qed.

Lemma handle_events_timeline events :
  forall v, _timeline (fst (handle_events events v)) = _timeline v.
Proof.
  induction events as [| e events IH]; intros v; [reflexivity |].
  destruct e; cbn [handle_events fst]; try reflexivity.
  - now rewrite IH.
  - now rewrite IH, handle_key_down_timeline.
  - apply IH.
Qed.

Lemma handle_events_quit events :
  forall v, snd (handle_events events v) = existsb is_quit events.
Proof.
  induction events as [| e events IH]; intros v; [reflexivity |].
  destruct e; cbn [handle_events existsb is_quit orb]; auto.
Qed.

Lemma handle_keys_pressed_timeline keys_pressed v :
  _timeline (_handle_keys_pressed keys_pressed v) = _timeline v.
Proof.
  unfold _handle_keys_pressed.
  destruct (keys_pressed K_LEFT), (keys_pressed K_RIGHT);
    repeat match goal with
           | |- context [if _paused ?x then _ else _] =>
               destruct (_paused x) eqn:?
           end;
    rewrite ?(proj1 (frames_forward_frame _ _)); reflexivity.
Qed.

Lemma getitem_nil {A : Type} (i : Z) :
  Py.getitem (@nil A) i = Raise IndexError.
Proof.
  unfold Py.getitem; cbn [List.length Z.of_nat].
  destruct (i <? 0);
    [destruct (Z.ltb_spec (i + 0) 0), (Z.leb_spec 0 (i + 0))
    |destruct (Z.ltb_spec i 0), (Z.leb_spec 0 i)]; cbn; try reflexivity; lia.
Qed.

(** With an empty timeline a tick ends at the quit event or at the fetch. *)
Lemma tick_empty_timeline events keys_pressed v :
  _timeline v = [] ->
  exists v',
    tick events keys_pressed v =
    if existsb is_quit events then Quit v' else Crash IndexError v'.
Proof.
  intros Hempty. unfold tick.
  pose proof (handle_events_quit events v) as Hq.
  pose proof (handle_events_timeline events v) as Ht.
  destruct (handle_events events v) as [v1 q]; cbn [fst snd] in *.
  rewrite <- Hq. destruct q.
  - now exists v1.
  - exists (_handle_keys_pressed keys_pressed v1).
    now rewrite handle_keys_pressed_timeline, Ht, Hempty, getitem_nil.
Qed.

(** The invariant of C9 along the loop itself: a tick that presents a
    frame leaves a valid index valid, whatever the events and held keys. *)
Lemma handle_key_down_valid key v :
  valid_index v -> valid_index (_handle_key_down key v).
Proof.
  unfold _handle_key_down, valid_index; intros Hv.
  destruct (Key_eqb key K_SPACE), (Key_eqb key K_r); cbn; try exact Hv;
    change (timeline_len (with_time_idx 0 _)) with (timeline_len v); lia.
Qed.

Lemma handle_key_down_rate key v :
  _playback_rate (_handle_key_down key v) = _playback_rate v.
Proof.
  unfold _handle_key_down.
  destruct (Key_eqb key K_SPACE), (Key_eqb key K_r); reflexivity.
Qed.

Lemma handle_events_valid events :
  forall v,
    valid_index v -> 1 <= _playback_rate v ->
    valid_index (fst (handle_events events v)) /\
    1 <= _playback_rate (fst (handle_events events v)).
Proof.
  induction events as [| e events IH]; intros v Hv Hr; [now split |].
  destruct e; cbn [handle_events fst]; try (now split).
  - apply IH; assumption.
  - apply IH; [now apply handle_key_down_valid |].
    now rewrite handle_key_down_rate.
  - now apply IH.
Qed.

Lemma handle_keys_pressed_valid keys_pressed v :
  valid_index v -> 1 <= _playback_rate v ->
  valid_index (_handle_keys_pressed keys_pressed v) /\
  1 <= _playback_rate (_handle_keys_pressed keys_pressed v).
Proof.
  intros Hv Hr. unfold _handle_keys_pressed.
  set (n := if keys_pressed K_LSHIFT || keys_pressed K_RSHIFT
            then _playback_rate v else 1).
  assert (Hn : 1 <= n) by (subst n; destruct (_ || _); lia).
  destruct (keys_pressed K_LEFT), (keys_pressed K_RIGHT);
    destruct (_paused v) eqn:Hp; cbn [_frames_back with_time_idx _paused _playback_rate];
    rewrite ?Hp; fold n;
    rewrite ?(proj2 (frames_forward_frame _ _));
    split; try assumption;
    try (apply frames_forward_valid; [exact Hn |]);
    try (apply frames_back_valid; [exact Hn |]); assumption.
Qed.

Lemma tick_preserves_valid_index events keys_pressed v v' situation frame :
  valid_index v -> 1 <= _playback_rate v ->
  tick events keys_pressed v = Frame v' situation frame ->
  valid_index v' /\ 1 <= _playback_rate v'.
Proof.
  intros Hv Hr. unfold tick.
  destruct (handle_events_valid events v Hv Hr) as [Hv1 Hr1].
  destruct (handle_events events v) as [v1 q]; cbn [fst] in *.
  destruct q; [discriminate |].
  destruct (handle_keys_pressed_valid keys_pressed v1 Hv1 Hr1) as [Hv2 Hr2].
  destruct (Py.getitem _ _) as [s | e]; [| discriminate].
  destruct (_render_situation _ s) as [f | e]; [| discriminate].
  intros [= <- _ _].
  destruct (_paused _); [now split |].
  split; [now apply frames_forward_valid |].
  now rewrite (proj2 (frames_forward_frame _ _)).
Qed.

(** At a valid index the fetch of the snapshot does not raise. *)
Lemma getitem_valid_index v :
  valid_index v ->
  exists situation, Py.getitem (_timeline v) (_time_idx v) = Ok situation.
Proof.
  unfold valid_index, timeline_len, Py.getitem; intros [Hlo Hhi].
  destruct (Z.ltb_spec (_time_idx v) 0); [lia |].
  destruct (Z.ltb_spec (_time_idx v) 0); [lia |].
  destruct (Z.leb_spec (Z.of_nat (List.length (_timeline v))) (_time_idx v));
    [lia |]. cbn [orb].
  destruct (nth_error (_timeline v) (Z.to_nat (_time_idx v))) as [s |] eqn:E;
    [now exists s |].
  apply nth_error_None in E. lia.
Qed.

(** C2 (as the code has it).  A tick that presents a frame fetched its
    snapshot at the index left by the input handling, before the automatic
    advance: the advance (when not paused) comes after the fetch and only
    the state it leaves is used to render that snapshot.  On the timeline
    of two snapshots, rate 1, running at index 0: the first tick renders
    snapshot 0 and leaves index 1 with paused false; the second renders
    snapshot 1 and leaves index 1 with paused true. *)
Theorem tick_fetches_before_advancing :
  (forall events keys_pressed v v' situation frame,
     tick events keys_pressed v = Frame v' situation frame ->
     let v1 := _handle_keys_pressed keys_pressed (fst (handle_events events v)) in
     Py.getitem (_timeline v1) (_time_idx v1) = Ok situation /\
     v' = (if _paused v1 then v1 else _frames_forward (_playback_rate v1) v1) /\
     _render_situation v' situation = Ok frame) /\
  (exists v1 frame1 v2 frame2,
     tick [] no_keys two_snapshots = Frame v1 (snapshot 0 10) frame1 /\
     _time_idx v1 = 1 /\ _paused v1 = false /\
     tick [] no_keys v1 = Frame v2 (snapshot 1 20) frame2 /\
     _time_idx v2 = 1 /\ _paused v2 = true).
Proof.
  split.
  - intros events keys_pressed v v' situation frame. unfold tick.
    destruct (handle_events events v) as [v1 q]; cbn [fst].
    destruct q; [discriminate |].
    destruct (Py.getitem _ _) as [s | e]; [| discriminate].
    destruct (_render_situation _ s) as [f | e] eqn:Hr; [| discriminate].
    intros [= <- <- <-]. split_conj; first [assumption | reflexivity].
  - set (v1 := _frames_forward 1 two_snapshots).
    set (v2 := _frames_forward 1 (_frames_forward 1 two_snapshots)).
    exists v1, (frame_of (_render_situation v1 (snapshot 0 10))),
      v2, (frame_of (_render_situation v2 (snapshot 1 20))).
    subst v1 v2. split_conj; by_computation.
Qed.

Lemma tick_fetches_before_advancing_witness :
  let v' := _frames_forward 1 two_snapshots in
  let frame := frame_of (_render_situation v' (snapshot 0 10)) in
  tick [] no_keys two_snapshots = Frame v' (snapshot 0 10) frame /\
  Py.getitem (_timeline two_snapshots) (_time_idx two_snapshots)
    = Ok (snapshot 0 10).
Proof.
  assert (H : tick [] no_keys two_snapshots
              = Frame (_frames_forward 1 two_snapshots) (snapshot 0 10)
                  (frame_of (_render_situation (_frames_forward 1 two_snapshots)
                                               (snapshot 0 10))))
    by by_computation.
  split; [exact H |].
  exact (proj1 (proj1 tick_fetches_before_advancing _ _ _ _ _ _ H)).
Defined.

(** C2 (as stated) fails: on the two-snapshot timeline, rate 1, running at
    index 0, the first tick renders the snapshot of index 0, not 1, and
    the paused flag is false after it. *)
Lemma first_tick_shows_first_snapshot_unpaused :
  exists v' frame,
    _playback_rate two_snapshots = 1 /\ _paused two_snapshots = false /\
    _time_idx two_snapshots = 0 /\
    tick [] no_keys two_snapshots = Frame v' (snapshot 0 10) frame /\
    Py.getitem (_timeline two_snapshots) 1 = Ok (snapshot 1 20) /\
    snapshot 0 10 <> snapshot 1 20 /\
    _paused v' = false.
Proof.
  exists (_frames_forward 1 two_snapshots),
    (frame_of (_render_situation (_frames_forward 1 two_snapshots)
                                 (snapshot 0 10))).
  split_conj; try by_computation.
  discriminate.
Qed.

(** C5 (as the code has it).  With no line on the input the timeline is
    empty and [main] still enters the loop: the first tick drains its
    events and then either returns on a quit event, the program ending
    normally, or raises [IndexError] at the fetch of the snapshot.  No
    frame is rendered either way. *)
Theorem empty_timeline_fails_inside_first_tick :
  forall literal_eval speed dark events keys_pressed rest,
    1 <= speed ->
    main literal_eval speed dark [] ((events, keys_pressed) :: rest) =
    if existsb is_quit events then Exited [] else Crashed IndexError [].
Proof.
  intros literal_eval speed dark events keys_pressed rest Hspeed.
  unfold main.
  destruct (Z.ltb_spec speed 1); [lia |].
  destruct (set_playback_rate speed _) as [v | e] eqn:Hset.
  2:{ unfold set_playback_rate in Hset.
      destruct (Z.leb_spec 1 speed); [discriminate | lia]. }
  apply set_playback_rate_positive in Hset as [_ Ht].
  cbn [push_lines]. unfold main_loop; cbn [loop].
  destruct (tick_empty_timeline events keys_pressed
              (with_time_idx 0 (if dark then set_colors Colors.dark v else v)))
    as [v' ->].
  { destruct dark; cbn; exact Ht. }
  destruct (existsb is_quit events); reflexivity.
Qed.

Lemma empty_timeline_fails_inside_first_tick_witness :
  main (fun _ => Raise SyntaxError) 4 false []
       [([KEYDOWN K_SPACE], no_keys); ([QUIT], no_keys)]
  = Crashed IndexError [].
Proof.
  apply (empty_timeline_fails_inside_first_tick
           (fun _ => Raise SyntaxError) 4 false [KEYDOWN K_SPACE] no_keys
           [([QUIT], no_keys)]).
  vm_compute; discriminate.
Defined.

(** C5 (as stated) fails: with an empty timeline the loop is entered.  A
    quit event in the first tick ends the program normally, without any
    failure; a resize event in the first tick is handled (the window size
    changes) before the fetch raises. *)
Lemma empty_timeline_enters_loop :
  main (fun _ => Raise SyntaxError) 4 false [] [([QUIT], no_keys)] = Exited [] /\
  exists v',
    tick [VIDEORESIZE 640 480] no_keys
         (__init__ INITIAL_WINDOW_WIDTH INITIAL_WINDOW_HEIGHT)
      = Crash IndexError v' /\
    _window_width v' = 640 /\ _window_height v' = 480.
Proof.
  split; [by_computation |].
  exists (with_window_size 640 480
            (__init__ INITIAL_WINDOW_WIDTH INITIAL_WINDOW_HEIGHT)).
  split_conj; by_computation.
Qed.

(** ** Scene renderer *)

Ltac inv_bind H :=
  match type of H with
  | bind ?r _ = Ok _ =>
      let E := fresh "E" in
      destruct r eqn:E; [cbn [bind] in H | discriminate H]
  end.

Lemma fold_left_max_spec (xs : list Z) :
  forall x,
    let m := fold_left Z.max xs x in
    In m (x :: xs) /\ forall y, In y (x :: xs) -> y <= m.
Proof.
  induction xs as [| a xs IH]; intros x; cbn [fold_left].
  - split; [now left |]. intros y [<- | []]; lia.
  - destruct (IH (Z.max x a)) as [Hin Hle]. split.
    + destruct Hin as [Hm | Hin]; [| right; now right].
      rewrite <- Hm. destruct (Z.max_spec x a) as [[_ ->] | [_ ->]];
        [right; now left | now left].
    + pose proof (Hle (Z.max x a) (or_introl eq_refl)) as Hmax.
      intros y [Hy | [Hy | Hy]]; [lia | lia |].
      apply Hle. now right.
Qed.

Lemma py_max_spec (xs : list Z) :
  xs <> [] ->
  exists m, Py.max xs = Ok m /\ In m xs /\ forall y, In y xs -> y <= m.
Proof.
  destruct xs as [| x xs]; [contradiction | intros _].
  exists (fold_left Z.max xs x). split; [reflexivity |].
  apply fold_left_max_spec.
Qed.

Lemma mapM_length {A B : Type} (f : A -> result B) (xs : list A) :
  forall ys, mapM f xs = Ok ys -> List.length ys = List.length xs.
Proof.
  induction xs as [| x xs IH]; cbn [mapM]; intros ys H.
  - now injection H as <-.
  - inv_bind H. inv_bind H. injection H as <-.
    cbn [List.length]. f_equal. now apply IH.
Qed.

Lemma mapM_int_lengths (roads : list Road) (zs : list Z) :
  map road_length roads = map Py.Int zs ->
  mapM (fun road => Py.int (road_length road)) roads = Ok zs.
Proof.
  revert zs; induction roads as [| r roads IH]; intros [| z zs] H;
    try discriminate; [reflexivity |].
  cbn [map] in H. injection H as Hr Hrest.
  cbn [mapM]. rewrite Hr; cbn [Py.int bind].
  now rewrite (IH zs Hrest).
Qed.

(** C4 (as the code has it).  The scale is the canvas width divided, by
    Python's true division, by the largest of the road lengths after each
    was truncated to an int; when every length is an int this is the
    canvas width over the maximum road length.  Lengths 50, 100, 25 on a
    canvas 800 wide give 8.0. *)
Theorem horizontal_scale_divides_by_max_truncated_length :
  (forall v roads lengths,
     roads <> [] ->
     mapM (fun road => Py.int (road_length road)) roads = Ok lengths ->
     exists m,
       In m lengths /\ (forall l, In l lengths -> l <= m) /\
       horizontal_scale v roads = Py.truediv (_get_canvas_width v) m) /\
  (forall v roads zs,
     roads <> [] ->
     map road_length roads = map Py.Int zs ->
     exists m,
       In m zs /\ (forall l, In l zs -> l <= m) /\
       horizontal_scale v roads = Py.truediv (_get_canvas_width v) m) /\
  _get_canvas_width (canvas_of_width 800) = 800 /\
  horizontal_scale (canvas_of_width 800) three_roads = Ok float_8_0.
Proof.
  assert (Hgen : forall v roads lengths,
     roads <> [] ->
     mapM (fun road => Py.int (road_length road)) roads = Ok lengths ->
     exists m,
       In m lengths /\ (forall l, In l lengths -> l <= m) /\
       horizontal_scale v roads = Py.truediv (_get_canvas_width v) m).
  { intros v roads lengths Hne Hlen.
    assert (Hne' : lengths <> []).
    { apply mapM_length in Hlen. destruct lengths; [| discriminate].
      destruct roads; [contradiction | discriminate]. }
    destruct (py_max_spec lengths Hne') as (m & Hmax & Hin & Hle).
    exists m. split_conj; try assumption.
    unfold horizontal_scale, max_road_length.
    rewrite Hlen; cbn [bind]. now rewrite Hmax. }
  split; [exact Hgen |]. split.
  - intros v roads zs Hne Hint.
    exact (Hgen v roads zs Hne (mapM_int_lengths roads zs Hint)).
  - split; vm_compute; reflexivity.
Qed.

Lemma horizontal_scale_divides_by_max_truncated_length_witness :
  exists m,
    In m [50; 100; 25] /\ (forall l, In l [50; 100; 25] -> l <= m) /\
    horizontal_scale (canvas_of_width 800) three_roads
    = Py.truediv (_get_canvas_width (canvas_of_width 800)) m.
Proof.
  apply (proj1 horizontal_scale_divides_by_max_truncated_length
           (canvas_of_width 800) three_roads [50; 100; 25]).
  - discriminate.
  - vm_compute; reflexivity.
Defined.

(** C4 (as stated) fails: for one road of length 2.5 on a canvas 10 wide
    the renderer's scale is 10 / 2 = 5.0, while 10 / 2.5 = 4.0. *)
Lemma horizontal_scale_truncates_length :
  _get_canvas_width (canvas_of_width 10) = 10 /\
  horizontal_scale (canvas_of_width 10) [plain_road "A" (Py.Float float_2_5)]
    = Ok float_5_0 /\
  truediv_num 10 (Py.Float float_2_5) = Ok float_4_0 /\
  float_5_0 <> float_4_0.
Proof.
  split_conj; try by_computation. discriminate.
Qed.

(** [int(f)] truncates toward zero: an integral [f] is returned as it is,
    otherwise the quotient rounds toward zero ([Z.quot]). *)
Lemma int_of_float_truncates s m e :
  Py.int_of_float (S754_finite s m e) =
  Ok (if 0 <=? e then cond_Zopp s (Zpos m) * 2 ^ e
      else Z.quot (cond_Zopp s (Zpos m)) (2 ^ (- e))).
Proof.
  cbn [Py.int_of_float]. f_equal.
  destruct (Z.leb_spec 0 e) as [Hpos | Hneg].
  - rewrite Z.shiftl_mul_pow2 by assumption.
    destruct s; cbn [cond_Zopp]; lia.
  - rewrite Z.shiftl_div_pow2 by lia.
    assert (Hpow : 0 < 2 ^ (- e)) by (apply Z.pow_pos_nonneg; lia).
    destruct s; cbn [cond_Zopp].
    + change (Z.neg m) with (- Z.pos m).
      rewrite Z.quot_opp_l by lia.
      now rewrite Z.quot_div_nonneg by lia.
    + now rewrite Z.quot_div_nonneg by lia.
Qed.

Lemma draw_cars_body_inv v road_y scale car cmds :
  _draw_cars_body v road_y scale car = Ok cmds ->
  exists f p w,
    Py.mul_float (car_x car) scale = Ok f /\
    Py.int_of_float f = Ok p /\
    scaled (Py.Int (_get_car_width v)) scale = Ok w /\
    cmds = [Rect (Colors.car (_colors v))
                 (_get_canvas_origin_left v + (p - Z.max 1 w))
                 (road_y - _get_car_height v / 2)
                 (Z.max 1 w) (_get_car_height v)].
Proof.
  unfold _draw_cars_body; intros H.
  inv_bind H. inv_bind H. injection H as <-.
  unfold scaled in E0. inv_bind E0.
  now exists a1, a0, a.
Qed.

Lemma draw_traffic_lights_body_inv v road_y scale light cmds :
  _draw_traffic_lights_body v road_y scale light = Ok cmds ->
  exists xi f p t indicators,
    Py.int (light_x light) = Ok xi /\
    Py.mul_float (Py.Int xi) scale = Ok f /\
    Py.int_of_float f = Ok p /\
    cmds = indicators ++
           _draw_traffic_light v (_get_canvas_origin_left v + p) road_y t
             (Py.bool (light_green light)) /\
    match light_xs light, light_xs0 light with
    | Some xs, Some xs0 =>
        if Py.bool (light_green light) then indicators = []
        else exists dd sd,
            scaled_int xs scale = Ok dd /\ scaled_int xs0 scale = Ok sd /\
            indicators =
              _draw_indicators v (_get_canvas_origin_left v + p) road_y dd sd
    | _, _ => indicators = []
    end.
Proof.
  unfold _draw_traffic_lights_body; intros H.
  inv_bind H. inv_bind H. inv_bind H. injection H as <-.
  unfold scaled_int, int_times in E. inv_bind E. inv_bind E2.
  exists a3, a2, a, (Z.max 1 a0), a1. split_conj; try assumption; try reflexivity.
  destruct (light_xs light) as [xs |], (light_xs0 light) as [xs0 |];
    try (now injection E1 as <-).
  destruct (Py.bool (light_green light)); cbn [negb] in E1;
    [now injection E1 as <- |].
  inv_bind E1. inv_bind E1. inv_bind E1. inv_bind E1. injection E1 as <-.
  exists a6, a7. unfold scaled_int. rewrite E4, E5; cbn [bind].
  now rewrite E6, E7.
Qed.

(** C3 (as the code has it).  A simulation offset is mapped to
    [origin + int(value * horizontal_scale)], where [int] truncates toward
    zero instead of rounding to nearest.  A car's rectangle has its right
    edge there (its left edge one car width before); a light is drawn at
    the truncated product of its position truncated to an int, and its
    zones reach back from there by the truncated products of their
    (truncated) offsets.  Position 50 at scale 8.0 maps to offset 400. *)
Theorem offsets_are_truncated_products :
  (forall s m e,
     Py.int_of_float (S754_finite s m e) =
     Ok (if 0 <=? e then cond_Zopp s (Zpos m) * 2 ^ e
         else Z.quot (cond_Zopp s (Zpos m)) (2 ^ (- e)))) /\
  (forall v road_y scale car cmds,
     _draw_cars_body v road_y scale car = Ok cmds ->
     exists f p w,
       Py.mul_float (car_x car) scale = Ok f /\
       Py.int_of_float f = Ok p /\
       scaled (Py.Int (_get_car_width v)) scale = Ok w /\
       cmds = [Rect (Colors.car (_colors v))
                    (_get_canvas_origin_left v + (p - Z.max 1 w))
                    (road_y - _get_car_height v / 2)
                    (Z.max 1 w) (_get_car_height v)]) /\
  (forall v road_y scale light cmds,
     _draw_traffic_lights_body v road_y scale light = Ok cmds ->
     exists xi f p t indicators,
       Py.int (light_x light) = Ok xi /\
       Py.mul_float (Py.Int xi) scale = Ok f /\
       Py.int_of_float f = Ok p /\
       cmds = indicators ++
              _draw_traffic_light v (_get_canvas_origin_left v + p) road_y t
                (Py.bool (light_green light)) /\
       (indicators = [] \/
        exists xs xs0 dd sd,
          light_xs light = Some xs /\ light_xs0 light = Some xs0 /\
          scaled_int xs scale = Ok dd /\ scaled_int xs0 scale = Ok sd /\
          indicators =
            _draw_indicators v (_get_canvas_origin_left v + p) road_y dd sd)) /\
  scaled (Py.Int 50) float_8_0 = Ok 400 /\
  _draw_cars_body (canvas_of_width 800) 100 float_8_0 {| car_x := Py.Int 50 |}
  = Ok [Rect (Colors.car Colors.default) (16 + (400 - 32)) 95 32 10].
Proof.
  split; [exact int_of_float_truncates |].
  split; [exact draw_cars_body_inv |].
  split; [| split; vm_compute; reflexivity].
  intros v road_y scale light cmds H.
  destruct (draw_traffic_lights_body_inv _ _ _ _ _ H)
    as (xi & f & p & t & ind & Hxi & Hf & Hp & Hcmds & Hind).
  exists xi, f, p, t, ind. split_conj; try assumption.
  destruct (light_xs light) as [xs |], (light_xs0 light) as [xs0 |];
    try (now left).
  destruct (Py.bool (light_green light)); [now left |].
  destruct Hind as (dd & sd & Hdd & Hsd & ->).
  right. now exists xs, xs0, dd, sd.
Qed.

Lemma offsets_are_truncated_products_witness :
  exists f p w,
    Py.mul_float (Py.Int 1) float_1_75 = Ok f /\
    Py.int_of_float f = Ok p /\
    scaled (Py.Int 4) float_1_75 = Ok w /\
    [Rect (Colors.car Colors.default) 10 95 7 10] =
    [Rect (Colors.car Colors.default) (16 + (p - Z.max 1 w)) (100 - 10 / 2)
          (Z.max 1 w) 10].
Proof.
  apply (proj1 (proj2 offsets_are_truncated_products)
           (canvas_of_width 7) 100 float_1_75 {| car_x := Py.Int 1 |}).
  vm_compute; reflexivity.
Defined.

(** C3 (as stated) fails: on a canvas 7 wide with a road of length 4 the
    scale is 1.75; a car at position 1 has the product 1.75, whose nearest
    integer is 2, and is drawn with its position at offset 1 (left edge at
    16 + 1 - 7 = 10, width 7). *)
Lemma car_offset_is_not_rounded :
  horizontal_scale (canvas_of_width 7) [plain_road "A" (Py.Int 4)]
    = Ok float_1_75 /\
  Py.mul_float (Py.Int 1) float_1_75 = Ok float_1_75 /\
  nearest_int float_1_75 2 = true /\
  nearest_int float_1_75 1 = false /\
  _get_canvas_origin_left (canvas_of_width 7) = 16 /\
  _draw_cars_body (canvas_of_width 7) 100 float_1_75 {| car_x := Py.Int 1 |}
    = Ok [Rect (Colors.car Colors.default) (16 + 1 - 7) 95 7 10].
Proof. split_conj; by_computation. Qed.

(** C8 (as the code has it).  A red light with zone data is drawn, in
    this order, as its deceleration zone, its full-stop zone, its
    half-stop zone, its stop line and its lamp.  The stop line and the
    lamp are at the signal's x position
    [lx = origin + int(int(x) * scale)]; the full-stop rectangle is [w]
    wide and starts [w] before [lx], where [w = int(int(xs0) * scale)];
    the half-stop rectangle has width and distance from [lx] both
    [w // 2], the floor of half of [w]: exactly half when [w] is even,
    half a pixel less than half when [w] is odd. *)
Theorem half_stop_zone_is_floor_of_half :
  forall v road_y scale light xs xs0 cmds,
    light_xs light = Some xs ->
    light_xs0 light = Some xs0 ->
    Py.bool (light_green light) = false ->
    _draw_traffic_lights_body v road_y scale light = Ok cmds ->
    exists p dd w t,
      scaled_int (light_x light) scale = Ok p /\
      scaled_int xs scale = Ok dd /\
      scaled_int xs0 scale = Ok w /\
      scaled (Py.Int (_get_light_stop_line_thickness v)) scale = Ok t /\
      cmds =
        [Rect (Colors.deceleration_range (_colors v))
              (_get_canvas_origin_left v + p - dd)
              (road_y - _get_road_height v / 2)
              dd (_get_road_height v);
         Rect (Colors.stopping_range_full (_colors v))
              (_get_canvas_origin_left v + p - w)
              (road_y - _get_road_height v / 2)
              w (_get_road_height v);
         Rect (Colors.stopping_range_half (_colors v))
              (_get_canvas_origin_left v + p - w / 2)
              (road_y - _get_road_height v / 2)
              (w / 2) (_get_road_height v);
         Line (Colors.traffic_light_red (_colors v))
              (_get_canvas_origin_left v + p)
              (road_y - _get_road_height v / 2)
              (_get_canvas_origin_left v + p)
              (road_y + _get_road_height v / 2 + _get_light_offset v)
              (Z.max 1 t);
         Circle (Colors.traffic_light_red (_colors v))
              (_get_canvas_origin_left v + p)
              (road_y + _get_road_height v / 2 + _get_light_offset v
               + _get_light_radius v)
              (_get_light_radius v)] /\
      2 * (w / 2) = w - w mod 2 /\
      (Z.even w = true -> 2 * (w / 2) = w) /\
      (Z.odd w = true -> 2 * (w / 2) = w - 1).
Proof.
  intros v road_y scale light xs xs0 cmds Hxs Hxs0 Hred H.
  unfold _draw_traffic_lights_body in H.
  rewrite Hxs, Hxs0, Hred in H. cbn [negb] in H.
  destruct (scaled_int (light_x light) scale) as [p | e] eqn:Hp;
    [cbn [bind] in H | discriminate].
  destruct (scaled (Py.Int (_get_light_stop_line_thickness v)) scale)
    as [t | e] eqn:Ht; [cbn [bind] in H | discriminate].
  destruct (int_times xs scale) as [fd | e] eqn:Hfd;
    [cbn [bind] in H | discriminate].
  destruct (int_times xs0 scale) as [fs | e] eqn:Hfs;
    [cbn [bind] in H | discriminate].
  destruct (Py.int_of_float fd) as [dd | e] eqn:Hdd;
    [cbn [bind] in H | discriminate].
  destruct (Py.int_of_float fs) as [w | e] eqn:Hw;
    [cbn [bind] in H | discriminate].
  injection H as <-.
  exists p, dd, w, t.
  split; [reflexivity |].
  split; [unfold scaled_int; now rewrite Hfd |].
  split; [unfold scaled_int; now rewrite Hfs |].
  split; [reflexivity |].
  split; [reflexivity |].
  pose proof (Z.div_mod w 2 ltac:(lia)) as Hdm.
  split; [lia |]. split.
  - intros Heven. rewrite Zeven_bool_iff in Heven.
    apply Zeven_div2 in Heven. rewrite Z.div2_div in Heven. lia.
  - intros Hodd. rewrite Zodd_bool_iff in Hodd.
    apply Zodd_div2 in Hodd. rewrite Z.div2_div in Hodd. lia.
Qed.

Lemma half_stop_zone_is_floor_of_half_witness :
  exists p dd w t,
    scaled_int (Py.Int 10) float_1_0 = Ok p /\
    scaled_int (Py.Int 8) float_1_0 = Ok dd /\
    scaled_int (Py.Int 5) float_1_0 = Ok w /\
    scaled (Py.Int 1) float_1_0 = Ok t /\
    [Rect (Colors.deceleration_range Colors.default) 18 90 8 20;
     Rect (Colors.stopping_range_full Colors.default) 21 90 5 20;
     Rect (Colors.stopping_range_half Colors.default) 24 90 2 20;
     Line (Colors.traffic_light_red Colors.default) 26 90 26 114 1;
     Circle (Colors.traffic_light_red Colors.default) 26 119 5] =
    [Rect (Colors.deceleration_range Colors.default) (16 + p - dd)
          (100 - 20 / 2) dd 20;
     Rect (Colors.stopping_range_full Colors.default) (16 + p - w)
          (100 - 20 / 2) w 20;
     Rect (Colors.stopping_range_half Colors.default) (16 + p - w / 2)
          (100 - 20 / 2) (w / 2) 20;
     Line (Colors.traffic_light_red Colors.default) (16 + p) (100 - 20 / 2)
          (16 + p) (100 + 20 / 2 + 4) (Z.max 1 t);
     Circle (Colors.traffic_light_red Colors.default) (16 + p)
          (100 + 20 / 2 + 4 + 5) 5] /\
    2 * (w / 2) = w - w mod 2 /\
    (Z.even w = true -> 2 * (w / 2) = w) /\
    (Z.odd w = true -> 2 * (w / 2) = w - 1).
Proof.
  apply (half_stop_zone_is_floor_of_half (canvas_of_width 100) 100 float_1_0
           red_light (Py.Int 8) (Py.Int 5));
    vm_compute; reflexivity.
Defined.

(** C8 (as stated) fails: a red light at 10 with a stopping zone of 5 at
    scale 1.0 has a full-stop rectangle 5 wide starting 5 before the light
    and a half-stop rectangle 2 wide starting 2 before it; twice 2 is not
    5. *)
Lemma half_stop_zone_of_odd_width :
  _draw_traffic_lights_body (canvas_of_width 100) 100 float_1_0 red_light =
    Ok [Rect (Colors.deceleration_range Colors.default) (26 - 8) 90 8 20;
        Rect (Colors.stopping_range_full Colors.default) (26 - 5) 90 5 20;
        Rect (Colors.stopping_range_half Colors.default) (26 - 2) 90 2 20;
        Line (Colors.traffic_light_red Colors.default) 26 90 26 114 1;
        Circle (Colors.traffic_light_red Colors.default) 26 119 5] /\
  2 * 2 <> 5.
Proof. split; [vm_compute; reflexivity | discriminate]. Qed.

(** ** Further properties of the playback controller *)

(** Pressing the pause key twice gives back the state it started from:
    the paused flag is restored and nothing else, the index included, was
    touched in between. *)
Theorem pause_key_twice_restores_state :
  forall v, _handle_key_down K_SPACE (_handle_key_down K_SPACE v) = v.
Proof.
  intros v. unfold _handle_key_down, _toggle_pause.
  destruct v as [? ? ? ? ? ? ? ? ? ? ? ? ? ? ? ? ? ? ? ? paused].
  cbn. now destruct paused.
Qed.

Lemma seek_ignored_while_running_aux keys_pressed v :
  _paused v = false -> _handle_keys_pressed keys_pressed v = v.
Proof.
  intros Hrun. unfold _handle_keys_pressed.
  destruct (keys_pressed K_LEFT), (keys_pressed K_RIGHT);
    rewrite ?Hrun; reflexivity.
Qed.

(** While running (not paused), held keys change nothing: a seek with the
    arrow keys, with or without shift, is ignored. *)
Theorem seek_ignored_while_running :
  forall keys_pressed v,
    _paused v = false -> _handle_keys_pressed keys_pressed v = v.
Proof.
  intros keys_pressed v Hrun. now apply seek_ignored_while_running_aux.
Qed.

Lemma seek_ignored_while_running_witness :
  _handle_keys_pressed both_arrows_held three_snapshots = three_snapshots.
Proof.
  apply (seek_ignored_while_running both_arrows_held three_snapshots).
  reflexivity.
Defined.

(** Held keys never change the paused flag, the timeline or the playback
    rate: seeking neither resumes nor (being possible only while paused)
    pauses playback. *)
Theorem held_keys_keep_paused_flag :
  forall keys_pressed v,
    _paused (_handle_keys_pressed keys_pressed v) = _paused v /\
    _timeline (_handle_keys_pressed keys_pressed v) = _timeline v /\
    _playback_rate (_handle_keys_pressed keys_pressed v) = _playback_rate v.
Proof.
  intros keys_pressed v. unfold _handle_keys_pressed.
  fold (seek_step keys_pressed v).
  destruct (_paused v) eqn:Hp.
  - destruct (keys_pressed K_LEFT), (keys_pressed K_RIGHT);
      cbn [_frames_back with_time_idx _paused _playback_rate _timeline];
      rewrite ?Hp, ?frames_forward_paused;
      rewrite ?(proj1 (frames_forward_frame _ _)),
              ?(proj2 (frames_forward_frame _ _));
      cbn [_frames_back with_time_idx _paused _playback_rate _timeline];
      rewrite ?Hp;
      split_conj; try reflexivity;
      match goal with |- (if ?b then _ else _) = _ => now destruct b end.
  - destruct (keys_pressed K_LEFT), (keys_pressed K_RIGHT);
      rewrite ?Hp; split_conj; first [exact Hp | reflexivity].
Qed.

(** While paused with both arrow keys held, the step back and the step
    forward cancel whenever the step fits below the index
    ([step <= index < length]): the state after is the state before. *)
Theorem both_arrows_cancel_when_paused :
  forall keys_pressed v,
    _paused v = true ->
    keys_pressed K_LEFT = true ->
    keys_pressed K_RIGHT = true ->
    seek_step keys_pressed v <= _time_idx v < timeline_len v ->
    _handle_keys_pressed keys_pressed v = v.
Proof.
  intros keys_pressed v Hp Hl Hr [Hlo Hhi]. unfold _handle_keys_pressed.
  fold (seek_step keys_pressed v). rewrite Hl, Hr, Hp.
  set (n := seek_step keys_pressed v) in *.
  cbn [_frames_back with_time_idx _paused _playback_rate].
  rewrite Hp. fold (seek_step keys_pressed v). fold n.
  unfold _frames_forward, timeline_len in *.
  cbn [_frames_back with_time_idx with_paused _time_idx _timeline].
  rewrite Z.max_r by lia.
  replace (_time_idx v - n + n) with (_time_idx v) by lia.
  destruct (Z.leb_spec (Z.of_nat (List.length (_timeline v))) (_time_idx v));
    [lia |].
  destruct v; reflexivity.
Qed.

Lemma both_arrows_cancel_when_paused_witness :
  _handle_keys_pressed both_arrows_held
    (with_paused true (with_time_idx 1 three_snapshots))
  = with_paused true (with_time_idx 1 three_snapshots).
Proof.
  apply (both_arrows_cancel_when_paused both_arrows_held
           (with_paused true (with_time_idx 1 three_snapshots)));
    vm_compute; intuition discriminate.
Defined.

Lemma auto_advance_iter_end (k : nat) :
  forall v,
    valid_index v -> 1 <= _playback_rate v ->
    timeline_len v <= _time_idx v + Z.of_nat k * _playback_rate v ->
    _paused v = false ->
    _time_idx (Nat.iter k auto_advance v) = timeline_len v - 1 /\
    _paused (Nat.iter k auto_advance v) = true /\
    _timeline (Nat.iter k auto_advance v) = _timeline v.
Proof.
  induction k as [| k IH]; intros v Hv Hr Hfar Hrun.
  - unfold valid_index in Hv. lia.
  - rewrite Nat.iter_succ_r.
    assert (Hstep : auto_advance v = _frames_forward (_playback_rate v) v)
      by (unfold auto_advance; now rewrite Hrun).
    rewrite Hstep.
    pose proof (frames_forward_time_idx (_playback_rate v) v) as Hidx.
    pose proof (frames_forward_paused (_playback_rate v) v) as Hpa.
    pose proof (frames_forward_frame (_playback_rate v) v) as [Htl Hrate].
    pose proof (timeline_len_frames_forward (_playback_rate v) v) as Hlen.
    destruct (Z.leb_spec (timeline_len v) (_time_idx v + _playback_rate v))
      as [Hover | Hin].
    + (* the step overshoots: paused at the end, and it stays there *)
      clear IH.
      set (w := _frames_forward (_playback_rate v) v) in *.
      assert (Hfix : forall j, Nat.iter j auto_advance w = w).
      { induction j as [| j IHj]; [reflexivity |].
        rewrite Nat.iter_succ, IHj. unfold auto_advance. now rewrite Hpa. }
      rewrite Hfix. now split_conj.
    + set (w := _frames_forward (_playback_rate v) v) in *.
      destruct (IH w) as (H1 & H2 & H3).
      * unfold valid_index in *. rewrite Hlen, Hidx. lia.
      * now rewrite Hrate.
      * rewrite Hlen, Hidx, Hrate. lia.
      * now rewrite Hpa.
      * rewrite Hlen in H1. rewrite H3. now split_conj.
Qed.

(** Playback comes to rest at the end.  From a valid index, running, with
    rate at least 1, [k] automatic advances that cover the rest of the
    timeline ([index + k * rate >= length]) leave the index on the last
    snapshot with the paused flag set. *)
Theorem playback_pauses_at_last_snapshot :
  forall v k,
    0 <= _time_idx v < timeline_len v ->
    1 <= _playback_rate v ->
    _paused v = false ->
    timeline_len v <= _time_idx v + Z.of_nat k * _playback_rate v ->
    _time_idx (Nat.iter k auto_advance v) = timeline_len v - 1 /\
    _paused (Nat.iter k auto_advance v) = true.
Proof.
  intros v k Hv Hr Hrun Hfar.
  destruct (auto_advance_iter_end k v Hv Hr Hfar Hrun) as (H1 & H2 & _).
  now split.
Qed.

Lemma playback_pauses_at_last_snapshot_witness :
  _time_idx (Nat.iter 3 auto_advance three_snapshots)
    = timeline_len three_snapshots - 1 /\
  _paused (Nat.iter 3 auto_advance three_snapshots) = true.
Proof.
  apply (playback_pauses_at_last_snapshot three_snapshots 3);
    vm_compute; intuition discriminate.
Defined.

(** ** Further properties of the render loop *)

(** A quit event ends the event loop at once: the events before it are
    handled, those after it are never looked at. *)
Theorem quit_drops_later_events :
  forall before after v,
    existsb is_quit before = false ->
    handle_events (before ++ QUIT :: after) v
    = (fst (handle_events before v), true).
Proof.
  induction before as [| e before IH]; intros after v Hnq; [reflexivity |].
  destruct e; cbn [existsb is_quit orb] in Hnq; try discriminate;
    cbn [app handle_events]; now apply IH.
Qed.

Lemma quit_drops_later_events_witness :
  handle_events ([KEYDOWN K_SPACE] ++ QUIT :: [KEYDOWN K_SPACE; KEYDOWN K_r])
    (with_time_idx 2 three_snapshots)
  = (fst (handle_events [KEYDOWN K_SPACE] (with_time_idx 2 three_snapshots)),
     true).
Proof.
  apply (quit_drops_later_events [KEYDOWN K_SPACE]
           [KEYDOWN K_SPACE; KEYDOWN K_r] (with_time_idx 2 three_snapshots)).
  reflexivity.
Defined.

(** While paused, a tick without events and without an arrow key held
    renders the current snapshot and leaves the whole state as it was. *)
Theorem idle_tick_while_paused_keeps_state :
  forall keys_pressed v v' situation frame,
    _paused v = true ->
    keys_pressed K_LEFT = false ->
    keys_pressed K_RIGHT = false ->
    tick [] keys_pressed v = Frame v' situation frame ->
    v' = v /\
    Py.getitem (_timeline v) (_time_idx v) = Ok situation /\
    _render_situation v situation = Ok frame.
Proof.
  intros keys_pressed v v' situation frame Hp Hl Hr. unfold tick.
  cbn [handle_events]. unfold _handle_keys_pressed. rewrite Hl, Hr.
  destruct (Py.getitem _ _) as [s | e]; [| discriminate].
  rewrite Hp.
  destruct (_render_situation v s) as [f | e] eqn:Hren; [| discriminate].
  intros [= <- <- <-]. now split_conj.
Qed.

Lemma idle_tick_while_paused_keeps_state_witness :
  let v := with_paused true two_snapshots in
  v = v /\
  Py.getitem (_timeline v) (_time_idx v) = Ok (snapshot 0 10) /\
  _render_situation v (snapshot 0 10)
  = Ok (frame_of (_render_situation v (snapshot 0 10))).
Proof.
  apply (idle_tick_while_paused_keeps_state no_keys
           (with_paused true two_snapshots) (with_paused true two_snapshots)
           (snapshot 0 10)
           (frame_of (_render_situation (with_paused true two_snapshots)
                                        (snapshot 0 10))));
    by_computation.
Defined.

Lemma loop_frames_count inputs :
  forall v frames,
    match loop inputs v frames with
    | Running _ frames' =>
        List.length frames' = (List.length frames + List.length inputs)%nat
    | Exited frames' | Crashed _ frames' =>
        (List.length frames <= List.length frames'
         < List.length frames + List.length inputs)%nat
    | UsageError => False
    end.
Proof.
  induction inputs as [| [events keys_pressed] rest IH]; intros v frames;
    cbn [loop List.length].
  - lia.
  - destruct (tick events keys_pressed v) as [v1 | e v1 | v1 s frame];
      try lia.
    specialize (IH v1 (frames ++ [frame])).
    destruct (loop rest v1 (frames ++ [frame]));
      rewrite ?length_app in IH; cbn [List.length] in IH; try lia.
Qed.

(** One frame per tick.  A loop still running after its recorded input
    has presented exactly as many frames as ticks went by; a loop that
    ended on a quit event or an exception has presented fewer frames than
    ticks were started (the last tick presents none). *)
Theorem main_loop_presents_one_frame_per_tick :
  forall inputs v,
    match main_loop inputs v with
    | Running _ frames => List.length frames = List.length inputs
    | Exited frames | Crashed _ frames =>
        (List.length frames < List.length inputs)%nat
    | UsageError => False
    end.
Proof.
  intros inputs v. unfold main_loop.
  pose proof (loop_frames_count inputs (with_time_idx 0 v) []) as H.
  destruct (loop inputs (with_time_idx 0 v) []); cbn [List.length] in H;
    try assumption; lia.
Qed.

Lemma tick_timeline events keys_pressed v v' situation frame :
  tick events keys_pressed v = Frame v' situation frame ->
  _timeline v' = _timeline v.
Proof.
  unfold tick.
  pose proof (handle_events_timeline events v) as Ht.
  destruct (handle_events events v) as [v1 q]; cbn [fst] in Ht.
  destruct q; [discriminate |].
  destruct (Py.getitem _ _) as [s | e]; [| discriminate].
  destruct (_render_situation _ s) as [f | e]; [| discriminate].
  intros [= <- _ _].
  destruct (_paused _); rewrite ?(proj1 (frames_forward_frame _ _));
    now rewrite handle_keys_pressed_timeline.
Qed.

Lemma loop_running_valid inputs :
  forall v frames v' frames',
    valid_index v -> 1 <= _playback_rate v ->
    loop inputs v frames = Running v' frames' ->
    valid_index v' /\ _timeline v' = _timeline v.
Proof.
  induction inputs as [| [events keys_pressed] rest IH];
    intros v frames v' frames' Hv Hr; cbn [loop].
  - intros [= <- _]. now split.
  - destruct (tick events keys_pressed v) as [v1 | e v1 | v1 s frame] eqn:Ht;
      try discriminate.
    intros Hloop.
    destruct (tick_preserves_valid_index _ _ _ _ _ _ Hv Hr Ht) as [Hv1 Hr1].
    destruct (IH _ _ _ _ Hv1 Hr1 Hloop) as [Hv' Htl].
    split; [exact Hv' |]. rewrite Htl.
    exact (tick_timeline _ _ _ _ _ _ Ht).
Qed.

(** The loop keeps the index inside the timeline.  Started on a non-empty
    timeline with rate at least 1, [main_loop] (which begins at index 0)
    is, after any number of ticks with any events and held keys, at an
    index that addresses a snapshot, and the timeline is the one it
    started with. *)
Theorem main_loop_keeps_index_valid :
  forall inputs v v' frames,
    _timeline v <> [] ->
    1 <= _playback_rate v ->
    main_loop inputs v = Running v' frames ->
    0 <= _time_idx v' < timeline_len v' /\ _timeline v' = _timeline v.
Proof.
  intros inputs v v' frames Hne Hr Hloop. unfold main_loop in Hloop.
  assert (Hv0 : valid_index (with_time_idx 0 v)).
  { unfold valid_index, timeline_len; cbn.
    destruct (_timeline v); [contradiction | cbn [List.length]; lia]. }
  destruct (loop_running_valid inputs _ _ _ _ Hv0 Hr Hloop) as [Hv' Htl].
  split; [exact Hv' | exact Htl].
Qed.

Lemma main_loop_keeps_index_valid_witness :
  let v' := _frames_forward 1 (_frames_forward 1 three_snapshots) in
  0 <= _time_idx v' < timeline_len v' /\
  _timeline v' = _timeline three_snapshots.
Proof.
  apply (main_loop_keeps_index_valid [([], no_keys); ([], no_keys)]
           three_snapshots
           (_frames_forward 1 (_frames_forward 1 three_snapshots))
           [frame_of (_render_situation (_frames_forward 1 three_snapshots)
                                        (snapshot 0 10));
            frame_of (_render_situation
                        (_frames_forward 1 (_frames_forward 1 three_snapshots))
                        (snapshot 1 20))]).
  - discriminate.
  - vm_compute; discriminate.
  - by_computation.
Defined.

(** ** Further properties of the scene renderer *)

(** At a valid index the fetch of the snapshot never fails.  Whatever
    the events and held keys of a tick that starts at a valid index with
    rate at least 1, the index left by the input handling addresses a
    snapshot; unless a quit event ends the loop, the tick goes on to
    render that snapshot after the automatic advance, and its outcome is
    that of the render. *)
Theorem snapshot_fetch_succeeds_at_valid_index :
  forall events keys_pressed v,
    0 <= _time_idx v < timeline_len v ->
    1 <= _playback_rate v ->
    let v1 := _handle_keys_pressed keys_pressed (fst (handle_events events v)) in
    exists situation,
      0 <= _time_idx v1 < timeline_len v1 /\
      nth_error (_timeline v) (Z.to_nat (_time_idx v1)) = Some situation /\
      Py.getitem (_timeline v1) (_time_idx v1) = Ok situation /\
      (existsb is_quit events = false ->
       tick events keys_pressed v =
       match _render_situation (auto_advance v1) situation with
       | Ok frame => Frame (auto_advance v1) situation frame
       | Raise e => Crash e (auto_advance v1)
       end).
Proof.
  intros events keys_pressed v Hv Hr v1.
  destruct (handle_events_valid events v Hv Hr) as [Hv0 Hr0].
  destruct (handle_keys_pressed_valid keys_pressed _ Hv0 Hr0) as [Hv1 _].
  fold v1 in Hv1.
  assert (Htl : _timeline v1 = _timeline v).
  { subst v1. now rewrite handle_keys_pressed_timeline, handle_events_timeline. }
  destruct (nth_error (_timeline v1) (Z.to_nat (_time_idx v1)))
    as [situation |] eqn:Hnth.
  2:{ apply nth_error_None in Hnth.
      unfold valid_index, timeline_len in Hv1. lia. }
  assert (Hget : Py.getitem (_timeline v1) (_time_idx v1) = Ok situation).
  { unfold valid_index, timeline_len in Hv1. unfold Py.getitem.
    destruct (Z.ltb_spec (_time_idx v1) 0); [lia |].
    destruct (Z.ltb_spec (_time_idx v1) 0); [lia |].
    destruct (Z.leb_spec (Z.of_nat (List.length (_timeline v1))) (_time_idx v1));
      [lia |].
    cbn [orb]. now rewrite Hnth. }
  exists situation. split; [exact Hv1 |].
  split; [now rewrite <- Htl |]. split; [exact Hget |].
  intros Hnq. unfold tick.
  pose proof (handle_events_quit events v) as Hq. rewrite Hnq in Hq.
  subst v1. destruct (handle_events events v) as [v0 q]; cbn [fst snd] in *.
  subst q. rewrite Hget. unfold auto_advance. reflexivity.
Qed.

Lemma snapshot_fetch_succeeds_at_valid_index_witness :
  let v := with_paused true (with_time_idx 2 three_snapshots) in
  let v1 := _handle_keys_pressed both_arrows_held
              (fst (handle_events [KEYDOWN K_r] v)) in
  exists situation,
    0 <= _time_idx v1 < timeline_len v1 /\
    nth_error (_timeline v) (Z.to_nat (_time_idx v1)) = Some situation /\
    Py.getitem (_timeline v1) (_time_idx v1) = Ok situation /\
    (existsb is_quit [KEYDOWN K_r] = false ->
     tick [KEYDOWN K_r] both_arrows_held v =
     match _render_situation (auto_advance v1) situation with
     | Ok frame => Frame (auto_advance v1) situation frame
     | Raise e => Crash e (auto_advance v1)
     end).
Proof.
  apply (snapshot_fetch_succeeds_at_valid_index [KEYDOWN K_r] both_arrows_held
           (with_paused true (with_time_idx 2 three_snapshots)));
    vm_compute; intuition discriminate.
Defined.





(** Zones are suppressed unless the light is red and carries both zone
    offsets: a green light, or one lacking ['xs'] or ['xs0'], is drawn as
    its stop line and lamp only, without any rectangle, and its zone data
    is not even converted (so cannot raise). *)
Theorem green_or_zoneless_light_draws_no_zone :
  forall v road_y scale light cmds,
    Py.bool (light_green light) = true \/
    light_xs light = None \/ light_xs0 light = None ->
    _draw_traffic_lights_body v road_y scale light = Ok cmds ->
    exists lx t,
      cmds = _draw_traffic_light v lx road_y t (Py.bool (light_green light)) /\
      List.length cmds = 2%nat /\
      existsb is_rect cmds = false.
Proof.
  intros v road_y scale light cmds Hcase H.
  destruct (draw_traffic_lights_body_inv _ _ _ _ _ H)
    as (xi & f & p & t & ind & _ & _ & _ & Hcmds & Hind).
  assert (Hnil : ind = []).
  { destruct (light_xs light) as [xs |], (light_xs0 light) as [xs0 |];
      try exact Hind.
    destruct (Py.bool (light_green light)); [exact Hind |].
    destruct Hcase as [Hc | [Hc | Hc]]; discriminate. }
  subst ind. cbn [app] in Hcmds.
  exists (_get_canvas_origin_left v + p), t. subst cmds.
  split_conj; reflexivity.
Qed.

Lemma green_or_zoneless_light_draws_no_zone_witness :
  exists lx t,
    [Line (Colors.traffic_light_green Colors.default) 26 90 26 114 1;
     Circle (Colors.traffic_light_green Colors.default) 26 119 5]
    = _draw_traffic_light (canvas_of_width 100) lx 100 t (Py.bool (Py.Int 1)) /\
    List.length
      [Line (Colors.traffic_light_green Colors.default) 26 90 26 114 1;
       Circle (Colors.traffic_light_green Colors.default) 26 119 5] = 2%nat /\
    existsb is_rect
      [Line (Colors.traffic_light_green Colors.default) 26 90 26 114 1;
       Circle (Colors.traffic_light_green Colors.default) 26 119 5] = false.
Proof.
  apply (green_or_zoneless_light_draws_no_zone (canvas_of_width 100) 100
           float_1_0
           {| light_x := Py.Int 10; light_green := Py.Int 1;
              light_xs := Some (Py.Int 8); light_xs0 := Some (Py.Int 5) |}).
  - left; reflexivity.
  - by_computation.
Defined.

(** Widths derived from a fixed simulation width never vanish: the
    rectangle of a car and that of the generator are at least 1 pixel
    wide and the stop line of a light at least 1 pixel thick, whatever the
    scale (zero and negative scales included).  The generator ends exactly
    at the left end of the road. *)
Theorem fixed_widths_are_at_least_one_pixel :
  (forall v road_y scale car cmds,
     _draw_cars_body v road_y scale car = Ok cmds ->
     exists left width,
       1 <= width /\
       cmds = [Rect (Colors.car (_colors v)) left
                    (road_y - _get_car_height v / 2) width
                    (_get_car_height v)]) /\
  (forall v road_x road_y scale cmds,
     _draw_generator v road_x road_y scale = Ok cmds ->
     exists left width,
       1 <= width /\ left + width = road_x /\
       cmds = [Rect (Colors.generator (_colors v)) left
                    (road_y - _get_road_height v / 2) width
                    (_get_road_height v)]) /\
  (forall v road_y scale light cmds,
     _draw_traffic_lights_body v road_y scale light = Ok cmds ->
     exists color x y1 y2 thickness,
       1 <= thickness /\ In (Line color x y1 x y2 thickness) cmds).
Proof.
  split_conj.
  - intros v road_y scale car cmds H.
    destruct (draw_cars_body_inv _ _ _ _ _ H) as (f & p & w & _ & _ & _ & ->).
    eexists _, (Z.max 1 w). split; [lia | reflexivity].
  - intros v road_x road_y scale cmds H. unfold _draw_generator in H.
    inv_bind H. injection H as <-.
    exists (road_x - Z.max 1 a), (Z.max 1 a). split_conj; [lia | lia | reflexivity].
  - intros v road_y scale light cmds H.
    unfold _draw_traffic_lights_body in H.
    inv_bind H. inv_bind H. inv_bind H. injection H as <-.
    eexists _, _, _, _, (Z.max 1 a0). split; [lia |].
    apply in_or_app; right. left. reflexivity.
Qed.

Lemma fixed_widths_are_at_least_one_pixel_witness :
  exists left width,
    1 <= width /\ left + width = 16 /\
    [Rect (Colors.generator Colors.default) 15 90 1 20]
    = [Rect (Colors.generator Colors.default) left (100 - 20 / 2) width 20].
Proof.
  apply (proj1 (proj2 fixed_widths_are_at_least_one_pixel)
           (canvas_of_width 0) 16 100 (S754_zero false)).
  by_computation.
Defined.

Lemma mapM_concat_singletons {A : Type} (f : A -> result (list DrawCmd))
  (P : DrawCmd -> bool) (xs : list A) :
  (forall x cmds, f x = Ok cmds ->
     exists c, cmds = [c] /\ P c = true) ->
  forall out, mapM f xs = Ok out ->
    List.length (List.concat out) = List.length xs /\
    forallb P (List.concat out) = true.
Proof.
  intros Hf. induction xs as [| x xs IH]; cbn [mapM]; intros out H.
  - injection H as <-. now split.
  - inv_bind H. inv_bind H. injection H as <-.
    destruct (Hf _ _ E) as (c & -> & Hc).
    destruct (IH _ eq_refl) as [Hlen Hall].
    cbn [List.concat app List.length forallb]. rewrite Hc, Hall, Hlen.
    now split.
Qed.

(** [_draw_cars] draws exactly one rectangle per car, in the order of the
    cars, and nothing else. *)
Theorem draw_cars_one_rectangle_per_car :
  forall v cars road_y scale cmds,
    _draw_cars v cars road_y scale = Ok cmds ->
    List.length cmds = List.length cars /\
    forallb is_rect cmds = true.
Proof.
  intros v cars road_y scale cmds H. unfold _draw_cars in H.
  inv_bind H. injection H as <-.
  apply (mapM_concat_singletons _ is_rect cars) in E; [exact E |].
  intros car c Hc.
  destruct (draw_cars_body_inv _ _ _ _ _ Hc) as (f & p & w & _ & _ & _ & ->).
  eexists. split; reflexivity.
Qed.

Lemma draw_cars_one_rectangle_per_car_witness :
  List.length (frame_of (_draw_cars (canvas_of_width 800)
                           [ {| car_x := Py.Int 50 |}; {| car_x := Py.Int 10 |} ]
                           100 float_8_0)) = 2%nat /\
  forallb is_rect (frame_of (_draw_cars (canvas_of_width 800)
                               [ {| car_x := Py.Int 50 |}; {| car_x := Py.Int 10 |} ]
                               100 float_8_0)) = true.
Proof.
  apply (draw_cars_one_rectangle_per_car (canvas_of_width 800)
           [ {| car_x := Py.Int 50 |}; {| car_x := Py.Int 10 |} ] 100 float_8_0).
  by_computation.
Defined.

(** What [_render_situation] draws for the roads, which does not read
    the paused flag. *)
Lemma render_situation_paused b v situation :
  _render_situation (with_paused b v) situation =
  (rest <- (scale <- horizontal_scale v (situation_roads situation) ;;
            drawn <- mapM (fun ir : Z * Road =>
                let (i, road) := ir in
                road_y_offset <-
                  Py.truediv ((i + 1) * _get_canvas_height v)
                    (Z.of_nat (List.length (situation_roads situation)) + 1) ;;
                y <- Py.int_of_float road_y_offset ;;
                _draw_full_road v road (_get_canvas_origin_top v + y) scale)
              (enumerate 0 (situation_roads situation)) ;;
            Ok (List.concat drawn)) ;;
   Ok (_draw_background v ++ _draw_time v (situation_time situation) ++
       (if b then _draw_pause_icon v else []) ++ rest)).
Proof.
  unfold _render_situation.
  change (horizontal_scale (with_paused b v)) with (horizontal_scale v).
  change (_get_canvas_height (with_paused b v)) with (_get_canvas_height v).
  change (_get_canvas_origin_top (with_paused b v))
    with (_get_canvas_origin_top v).
  change (_draw_full_road (with_paused b v)) with (_draw_full_road v).
  change (_draw_background (with_paused b v)) with (_draw_background v).
  change (_draw_time (with_paused b v)) with (_draw_time v).
  change (_draw_pause_icon (with_paused b v)) with (_draw_pause_icon v).
  change (_paused (with_paused b v)) with b.
  destruct (horizontal_scale v _) as [scale | e]; cbn [bind]; [| reflexivity].
  destruct (mapM _ _); reflexivity.
Qed.

(** The pause glyph is the only thing the paused flag changes in a
    frame: rendering the same snapshot paused gives the running frame
    with the two rectangles of the glyph inserted after the background
    fill and the time text. *)
Theorem pause_glyph_is_the_only_difference :
  forall v situation frame,
    _render_situation (with_paused false v) situation = Ok frame ->
    exists rest,
      frame = Fill (Colors.background (_colors v))
              :: Blit (_font_family v) (_get_font_size v) false
                   (Colors.text (_colors v))
                   (TimeText (situation_time situation))
                   (_get_canvas_origin_left v) (_get_canvas_origin_top v)
              :: rest /\
      _render_situation (with_paused true v) situation =
      Ok (Fill (Colors.background (_colors v))
          :: Blit (_font_family v) (_get_font_size v) false
               (Colors.text (_colors v))
               (TimeText (situation_time situation))
               (_get_canvas_origin_left v) (_get_canvas_origin_top v)
          :: _draw_pause_icon v ++ rest).
Proof.
  intros v situation frame H.
  rewrite render_situation_paused in *.
  inv_bind H. injection H as <-.
  exists a. split; reflexivity.
Qed.

Lemma pause_glyph_is_the_only_difference_witness :
  exists rest,
    frame_of (_render_situation (with_paused false two_snapshots)
                                (snapshot 0 10))
    = Fill (Colors.background Colors.default)
      :: Blit "DejaVu Sans" 16 false (Colors.text Colors.default)
           (TimeText (Py.Int 0)) 16 16
      :: rest /\
    _render_situation (with_paused true two_snapshots) (snapshot 0 10) =
    Ok (Fill (Colors.background Colors.default)
        :: Blit "DejaVu Sans" 16 false (Colors.text Colors.default)
             (TimeText (Py.Int 0)) 16 16
        :: _draw_pause_icon two_snapshots ++ rest).
Proof.
  apply (pause_glyph_is_the_only_difference two_snapshots (snapshot 0 10)).
  by_computation.
Defined.

(** ** Loading the feed *)

Lemma push_lines_spec literal_eval lines :
  forall v,
    push_lines literal_eval lines v =
    (parsed <- mapM literal_eval lines ;;
     Ok (with_timeline (_timeline v ++ parsed) v)).
Proof.
  induction lines as [| line lines IH]; intros v; cbn [push_lines mapM bind].
  - rewrite app_nil_r. now destruct v.
  - unfold push_simulation_frame_data.
    destruct (literal_eval line) as [p | e]; cbn [bind]; [| reflexivity].
    rewrite IH. cbn [with_timeline _timeline].
    destruct (mapM literal_eval lines) as [ps | e]; cbn [bind]; [| reflexivity].
    now rewrite <- app_assoc.
Qed.

(** Loading is all or nothing and keeps the order: [push_lines] either
    raises what the first malformed line raises, or appends the parsed
    lines, one snapshot per line and in feed order, to the timeline,
    changing nothing else. *)
Theorem push_lines_appends_in_order :
  forall literal_eval lines v,
    (forall e, mapM literal_eval lines = Raise e ->
       push_lines literal_eval lines v = Raise e) /\
    (forall parsed, mapM literal_eval lines = Ok parsed ->
       push_lines literal_eval lines v
         = Ok (with_timeline (_timeline v ++ parsed) v) /\
       List.length parsed = List.length lines).
Proof.
  intros literal_eval lines v. split.
  - intros e He. now rewrite push_lines_spec, He.
  - intros parsed Hp. split; [now rewrite push_lines_spec, Hp |].
    now apply mapM_length in Hp.
Qed.

Lemma push_lines_appends_in_order_witness :
  push_lines toy_literal_eval ["ok"%string; "bad"%string; "ok"%string]
    (__init__ INITIAL_WINDOW_WIDTH INITIAL_WINDOW_HEIGHT)
  = Raise SyntaxError.
Proof.
  apply (proj1 (push_lines_appends_in_order toy_literal_eval
                  ["ok"%string; "bad"%string; "ok"%string]
                  (__init__ INITIAL_WINDOW_WIDTH INITIAL_WINDOW_HEIGHT))).
  by_computation.
Defined.

(** [main] with a valid speed: one malformed line anywhere in the feed
    aborts the program with the parser's exception before any frame is
    presented, whatever input would have followed; a well-formed feed
    starts the loop on a timeline of exactly the parsed lines. *)
Theorem main_aborts_on_malformed_line :
  forall literal_eval speed dark lines inputs,
    1 <= speed ->
    (forall e, mapM literal_eval lines = Raise e ->
       main literal_eval speed dark lines inputs = Crashed e []) /\
    (forall parsed, mapM literal_eval lines = Ok parsed ->
       main literal_eval speed dark lines inputs
       = main_loop inputs (with_timeline parsed (configured speed dark))).
Proof.
  intros literal_eval speed dark lines inputs Hspeed.
  assert (Hmain : main literal_eval speed dark lines inputs =
                  match push_lines literal_eval lines (configured speed dark) with
                  | Raise e => Crashed e []
                  | Ok visualizer => main_loop inputs visualizer
                  end).
  { unfold main, set_playback_rate, configured.
    destruct (Z.ltb_spec speed 1); [lia |].
    destruct (Z.leb_spec 1 speed); [reflexivity | lia]. }
  rewrite Hmain, push_lines_spec. split.
  - intros e ->. reflexivity.
  - intros parsed ->. cbn [bind]. now destruct dark.
Qed.

Lemma main_aborts_on_malformed_line_witness :
  main toy_literal_eval 4 false
    ["ok"%string; "ok"%string; "bad"%string; "ok"%string; "ok"%string]
    [([], no_keys); ([QUIT], no_keys)]
  = Crashed SyntaxError [].
Proof.
  apply (proj1 (main_aborts_on_malformed_line toy_literal_eval 4 false
                  ["ok"%string; "ok"%string; "bad"%string; "ok"%string;
                   "ok"%string]
                  [([], no_keys); ([QUIT], no_keys)] ltac:(lia))).
  by_computation.
Defined.

(** ** The [Color] class *)

Lemma in_channel_range_spec c :
  in_channel_range c = true <-> 0 <= c <= 255.
Proof. unfold in_channel_range. rewrite andb_true_iff. lia. Qed.

Lemma apply_color_op_valid op c c' :
  valid_color c -> apply_color_op op c = Ok c' -> valid_color c'.
Proof.
  unfold valid_color. intros (Hr & Hg & Hb).
  destruct op as [x | x | x]; cbn [apply_color_op];
    unfold set_red, set_green, set_blue;
    destruct (in_channel_range x) eqn:Hx; cbn [negb]; try discriminate;
    apply in_channel_range_spec in Hx; intros [= <-]; cbn; lia.
Qed.

(** Every channel of a [Color] stays in [0, 255]: a color that the
    constructor accepted still has all three channels in range after any
    sequence of setter calls that did not raise. *)
Theorem color_channels_stay_in_range :
  forall red green blue ops c c',
    Color__init__ red green blue = Ok c ->
    apply_color_ops ops c = Ok c' ->
    0 <= get_red c' <= 255 /\ 0 <= get_green c' <= 255 /\
    0 <= get_blue c' <= 255.
Proof.
  intros red green blue ops c c' Hinit Hops.
  assert (Hc : valid_color c).
  { unfold Color__init__ in Hinit.
    destruct (in_channel_range red) eqn:Hr; cbn [negb] in Hinit;
      [| discriminate].
    destruct (in_channel_range green) eqn:Hg; cbn [negb] in Hinit;
      [| discriminate].
    destruct (in_channel_range blue) eqn:Hb; cbn [negb] in Hinit;
      [| discriminate].
    injection Hinit as <-. apply in_channel_range_spec in Hr, Hg, Hb.
    unfold valid_color; cbn. lia. }
  clear Hinit. revert c Hc Hops.
  induction ops as [| op ops IH]; intros c Hc Hops; cbn [apply_color_ops] in Hops.
  - injection Hops as <-. exact Hc.
  - inv_bind Hops. eapply IH; [| exact Hops].
    eapply apply_color_op_valid; eassumption.
Qed.

Lemma color_channels_stay_in_range_witness :
  0 <= get_red (Build_Color 0 100 255) <= 255 /\
  0 <= get_green (Build_Color 0 100 255) <= 255 /\
  0 <= get_blue (Build_Color 0 100 255) <= 255.
Proof.
  apply (color_channels_stay_in_range 255 100 255 [SetRed 7; SetRed 0]
           (Build_Color 255 100 255) (Build_Color 0 100 255));
    by_computation.
Defined.

(** A setter accepts exactly the values in [0, 255]: an accepted value is
    what the getter then returns, with the two other channels untouched;
    any other value raises [AssertionError]. *)
Theorem color_setters_set_or_reject :
  forall x c,
    (0 <= x <= 255 ->
     exists r g b,
       set_red x c = Ok r /\ as_tuple r = (x, get_green c, get_blue c) /\
       set_green x c = Ok g /\ as_tuple g = (get_red c, x, get_blue c) /\
       set_blue x c = Ok b /\ as_tuple b = (get_red c, get_green c, x)) /\
    (~ 0 <= x <= 255 ->
     set_red x c = Raise AssertionError /\
     set_green x c = Raise AssertionError /\
     set_blue x c = Raise AssertionError).
Proof.
  intros x c. unfold set_red, set_green, set_blue. split; intros Hx.
  - apply in_channel_range_spec in Hx. rewrite Hx; cbn [negb].
    do 3 eexists. split_conj; reflexivity.
  - destruct (in_channel_range x) eqn:E.
    + apply in_channel_range_spec in E. contradiction.
    + cbn [negb]. split_conj; reflexivity.
Qed.

Lemma color_setters_set_or_reject_witness :
  set_red 256 (Build_Color 1 2 3) = Raise AssertionError /\
  set_green 256 (Build_Color 1 2 3) = Raise AssertionError /\
  set_blue 256 (Build_Color 1 2 3) = Raise AssertionError.
Proof.
  apply (proj2 (color_setters_set_or_reject 256 (Build_Color 1 2 3))).
  lia.
Defined.

(** ** Seeking and restarting *)

(** A seek moves unless it is at the boundary: from a valid index and for
    [n >= 1], a step forward strictly increases the index when it is not
    yet the last one and a step back strictly decreases it when it is not
    0; neither ever moves the other way. *)
Theorem seeks_make_progress :
  forall v n,
    0 <= _time_idx v < timeline_len v ->
    1 <= n ->
    _time_idx v <= _time_idx (_frames_forward n v) /\
    (_time_idx v < timeline_len v - 1 ->
       _time_idx v < _time_idx (_frames_forward n v)) /\
    _time_idx (_frames_back n v) <= _time_idx v /\
    (0 < _time_idx v -> _time_idx (_frames_back n v) < _time_idx v).
Proof.
  intros v n Hv Hn.
  rewrite frames_forward_time_idx, frames_back_time_idx.
  destruct (Z.leb_spec (timeline_len v) (_time_idx v + n)); lia.
Qed.

Lemma seeks_make_progress_witness :
  let v := with_time_idx 1 three_snapshots in
  _time_idx v <= _time_idx (_frames_forward 1 v) /\
  (_time_idx v < timeline_len v - 1 ->
     _time_idx v < _time_idx (_frames_forward 1 v)) /\
  _time_idx (_frames_back 1 v) <= _time_idx v /\
  (0 < _time_idx v -> _time_idx (_frames_back 1 v) < _time_idx v).
Proof.
  apply (seeks_make_progress (with_time_idx 1 three_snapshots) 1);
    vm_compute; intuition discriminate.
Defined.

(** The restart key takes effect in the tick that receives it: while
    running, a tick whose only event is the restart key renders the first
    snapshot of the timeline, whatever the index was and whatever keys are
    held. *)
Theorem restart_tick_renders_first_snapshot :
  forall keys_pressed v first rest v' situation frame,
    _paused v = false ->
    _timeline v = first :: rest ->
    tick [KEYDOWN K_r] keys_pressed v = Frame v' situation frame ->
    situation = first.
Proof.
  intros keys_pressed v first rest v' situation frame Hrun Htl.
  unfold tick. cbn [handle_events].
  change (_handle_key_down K_r v) with (with_time_idx 0 v).
  rewrite seek_ignored_while_running_aux by exact Hrun.
  cbn [_timeline _time_idx with_time_idx]. rewrite Htl.
  cbn [Py.getitem List.length nth_error Z.to_nat].
  change (Py.getitem (first :: rest) 0) with (Ok first).
  cbv iota beta.
  match goal with
  | |- context [_render_situation ?w first] =>
      destruct (_render_situation w first); [| discriminate]
  end.
  now intros [= _ <- _].
Qed.

Lemma restart_tick_renders_first_snapshot_witness :
  snapshot 0 10 = snapshot 0 10.
Proof.
  apply (restart_tick_renders_first_snapshot both_arrows_held
           (with_time_idx 2 three_snapshots) (snapshot 0 10)
           [snapshot 1 20; snapshot 2 30]
           (_frames_forward 1 three_snapshots) (snapshot 0 10)
           (frame_of (_render_situation (_frames_forward 1 three_snapshots)
                                        (snapshot 0 10))));
    by_computation.
Defined.

(** The state a tick leaves is [auto_advance] of the state after input
    handling. *)
Lemma tick_applies_auto_advance events keys_pressed v v' situation frame :
  tick events keys_pressed v = Frame v' situation frame ->
  v' = auto_advance
         (_handle_keys_pressed keys_pressed (fst (handle_events events v))).
Proof.
  unfold tick, auto_advance.
  destruct (handle_events events v) as [v1 q]; cbn [fst].
  destruct q; [discriminate |].
  destruct (Py.getitem _ _) as [s | e]; [| discriminate].
  destruct (_render_situation _ s) as [f | e]; [| discriminate].
  now intros [= <- _ _].
Qed.

(** The pause glyph sits flush in the top-right corner of the canvas: its
    box starts at the top of the canvas and ends at its right edge, and,
    for a non-negative icon width, the bar cut out in the background
    color lies inside the box, a third of the width from its left. *)
Theorem pause_glyph_in_top_right_corner :
  forall v,
    exists left gap_left gap_width,
      _draw_pause_icon v =
        [Rect (Colors.text (_colors v)) left (_get_canvas_origin_top v)
              (_pause_icon_width v) (_pause_icon_height v);
         Rect (Colors.background (_colors v)) gap_left
              (_get_canvas_origin_top v) gap_width (_pause_icon_height v)] /\
      left + _pause_icon_width v
        = _get_canvas_origin_left v + _get_canvas_width v /\
      gap_left = left + _pause_icon_width v / 3 /\
      (0 <= _pause_icon_width v ->
         left <= gap_left /\ 0 <= gap_width /\
         gap_left + gap_width <= left + _pause_icon_width v).
Proof.
  intros v. unfold _draw_pause_icon.
  do 3 eexists. split; [reflexivity |].
  split; [lia |]. split; [reflexivity |].
  intros Hw. Z.to_euclidean_division_equations. lia.
Qed.

Lemma pause_glyph_in_top_right_corner_witness :
  exists left gap_left gap_width,
    _draw_pause_icon two_snapshots =
      [Rect (Colors.text Colors.default) left 16 15 20;
       Rect (Colors.background Colors.default) gap_left 16 gap_width 20] /\
    left + 15 = 16 + 768 /\
    gap_left = left + 15 / 3 /\
    (0 <= 15 -> left <= gap_left /\ 0 <= gap_width /\
                gap_left + gap_width <= left + 15).
Proof.
  exact (pause_glyph_in_top_right_corner two_snapshots).
Defined.
